(** * Zypher weather tool: a shallow embedding of [main.ts] and [weather.ts]

    The development follows the two TypeScript modules of the repository:

    - [weather.ts]: [weatherCodes], [getCoordinatesFromZip], [getWeather],
      [getWeatherByZip], [formatWeather], [getReadableWeatherByZip];
    - [main.ts]: the local re-implementation of [createTool] and the
      [weatherForcasting] tool built with it.

    JavaScript data is modelled as the runtime has it: strings are sequences
    of UTF-16 code units, numbers are IEEE 754 binary64 values
    ([spec_float] with precision 53 and maximal exponent 1024), values read
    from a JSON response are untyped and their conversion to a string can
    throw.  The two [await fetch] calls are calls to an environment (a
    function from the requested URL to what the network answers), and every
    computation records the URLs it requested. *)

From Stdlib Require Import ZArith NArith List String Ascii Bool Lia.
From Stdlib Require Import Floats.SpecFloat.
Import ListNotations.

Local Open Scope Z_scope.
Set Warnings "-register-all".

(* ================================================================== *)
(** ** JavaScript strings *)
(* ================================================================== *)

Module JsString.

(** A string is the list of its UTF-16 code units. *)
Definition code_unit := N.
Definition jsstring := list code_unit.

(** An ASCII literal of the source, as a JavaScript string. *)
Definition str (s : string) : jsstring :=
  map N_of_ascii (list_ascii_of_string s).
Arguments str s%_string.

(** The line feed of a template literal and the degree sign U+00B0. *)
Definition LF : jsstring := [10%N].
Definition DEGREE : jsstring := [176%N].

Fixpoint eqb (a b : jsstring) : bool :=
  match a, b with
  | [], [] => true
  | x :: a', y :: b' => N.eqb x y && eqb a' b'
  | _, _ => false
  end.

(** [WhiteSpace] and [LineTerminator] of ECMA-262, the code units that
    [String.prototype.trim] and [parseFloat] strip. *)
Definition is_ws (c : code_unit) : bool :=
  existsb (N.eqb c)
    [9; 10; 11; 12; 13; 32; 160; 5760; 8232; 8233; 8239; 8287; 12288; 65279]%N
  || (N.leb 8192 c && N.leb c 8202).

Fixpoint trimStart (s : jsstring) : jsstring :=
  match s with
  | c :: r => if is_ws c then trimStart r else s
  | [] => []
  end.

Fixpoint trimEnd (s : jsstring) : jsstring :=
  match s with
  | c :: r => if forallb is_ws s then [] else c :: trimEnd r
  | [] => []
  end.

(** [s.trim()] *)
Definition trim (s : jsstring) : jsstring := trimEnd (trimStart s).

(** [s.startsWith(p)] and [s.includes(p)] *)
Fixpoint startsWith (p s : jsstring) : bool :=
  match p, s with
  | [], _ => true
  | x :: p', y :: s' => N.eqb x y && startsWith p' s'
  | _ :: _, [] => false
  end.

Fixpoint includes (p s : jsstring) : bool :=
  startsWith p s ||
  match s with
  | [] => false
  | _ :: s' => includes p s'
  end.

(** A string has ink when one of its code units is not white space. *)
Definition has_ink (s : jsstring) : bool := negb (forallb is_ws s).

(** [sub] occurs in [s]. *)
Definition contains (sub s : jsstring) : Prop :=
  exists pre post, s = pre ++ sub ++ post.

End JsString.
Import JsString.

(* ================================================================== *)
(** ** JavaScript numbers *)
(* ================================================================== *)

Module JsNumber.

Definition number := spec_float.

Definition prec : Z := 53.
Definition emax : Z := 1024.

Definition NaN : number := S754_nan.
Definition Infinity : number := S754_infinity false.

(** The number of an integer literal of the source. *)
Definition of_Z (z : Z) : number := binary_normalize prec emax z 0 false.

(** [a < b], [a > b], [a <= b] and [a + b] on numbers. *)
Definition lessThan (a b : number) : bool := SFltb a b.
Definition greaterThan (a b : number) : bool := SFltb b a.
Definition lessOrEqual (a b : number) : bool := SFleb a b.
Definition add (a b : number) : number := SFadd prec emax a b.

(** [Number.isFinite] *)
Definition isFinite (x : number) : bool :=
  match x with
  | S754_zero _ | S754_finite _ _ _ => true
  | S754_infinity _ | S754_nan => false
  end.

(** [Number.isInteger]: finite, and no bit below the binary point. *)
Definition isInteger (x : number) : bool :=
  match x with
  | S754_zero _ => true
  | S754_finite _ m e =>
      if 0 <=? e then true else Z.eqb (Z.land (Zpos m) (2 ^ (- e) - 1)) 0
  | _ => false
  end.

(** Identity of two number values (same sign, mantissa and exponent). *)
Definition same (x y : number) : bool :=
  match x, y with
  | S754_zero a, S754_zero b => Bool.eqb a b
  | S754_infinity a, S754_infinity b => Bool.eqb a b
  | S754_nan, S754_nan => true
  | S754_finite a m e, S754_finite b m' e' =>
      Bool.eqb a b && Pos.eqb m m' && Z.eqb e e'
  | _, _ => false
  end.

(** The number nearest to [m * 10 ^ e10] (ties to even), negated when
    [neg]: the rounding that both the reading of a decimal literal and
    the printing of a number refer to. *)
Definition of_decimal (neg : bool) (m e10 : Z) : number :=
  let magnitude :=
    match m with
    | Z0 => S754_zero false
    | Zpos _ =>
        if 0 <=? e10 then binary_normalize prec emax (m * 10 ^ e10) 0 false
        else
          let '(q, e, l) := SFdiv_core_binary prec emax m 0 (10 ^ (- e10)) 0 in
          binary_round_aux prec emax false q e l
    | Zneg _ => S754_nan
    end in
  if neg then SFopp magnitude else magnitude.

(** *** Decimal digits *)

Definition digit (d : Z) : code_unit := Z.to_N (48 + d).

Definition is_digit (c : code_unit) : bool := N.leb 48 c && N.leb c 57.

Fixpoint digits_aux (fuel : nat) (n : Z) (acc : jsstring) : jsstring :=
  let acc' := digit (n mod 10) :: acc in
  match fuel with
  | O => acc'
  | S fuel' => if n / 10 =? 0 then acc' else digits_aux fuel' (n / 10) acc'
  end.

(** The decimal numeral of a non-negative integer. *)
Definition numeral (n : Z) : jsstring :=
  digits_aux (Z.to_nat (Z.log2 n)) n [].

Fixpoint take_digits (s : jsstring) : jsstring * jsstring :=
  match s with
  | c :: r =>
      if is_digit c then let '(ds, rest) := take_digits r in (c :: ds, rest)
      else ([], s)
  | [] => ([], [])
  end.

Definition digits_value (ds : jsstring) : Z :=
  fold_left (fun acc c => acc * 10 + (Z.of_N c - 48)) ds 0.

(** The code units a printed number can start with: a digit, [-], the
    [N] of [NaN], the [I] of [Infinity]. *)
Definition starts_number (c : code_unit) : bool :=
  is_digit c || N.eqb c 45 || N.eqb c 78 || N.eqb c 73.

(** *** [parseFloat] *)

Definition take_sign (s : jsstring) : bool * jsstring :=
  match s with
  | 45%N :: r => (true, r)
  | 43%N :: r => (false, r)
  | _ => (false, s)
  end.

(** [parseFloat(s)] for a string [s]: leading white space is skipped and
    the longest prefix that is a [StrDecimalLiteral] is read; [NaN] when
    there is none. *)
Definition parseFloat (input : jsstring) : number :=
  let '(neg, s1) := take_sign (trimStart input) in
  if startsWith (str "Infinity") s1 then S754_infinity neg
  else
    let '(ip, s2) := take_digits s1 in
    let '(fp, s3) :=
      match s2 with
      | 46%N :: r => take_digits r
      | _ => ([], s2)
      end in
    match ip ++ fp with
    | [] => NaN
    | ds =>
        let ex :=
          match s3 with
          | 101%N :: r | 69%N :: r =>
              let '(eneg, r1) := take_sign r in
              let '(ed, _) := take_digits r1 in
              match ed with
              | [] => 0
              | _ => if eneg then - digits_value ed else digits_value ed
              end
          | _ => 0
          end in
        of_decimal neg (digits_value ds) (ex - Z.of_nat (List.length fp))
    end.

(** *** [parseInt]

    [parseInt(s)] with no radix: leading white space and a sign are
    skipped, the prefix [0x] or [0X] selects radix 16, and the longest run
    of digits of the radix is read; [NaN] when there is none.  The
    integer read is rounded to the nearest number. *)
Definition digit_value (c : code_unit) : option Z :=
  if N.leb 48 c && N.leb c 57 then Some (Z.of_N c - 48)
  else if N.leb 97 c && N.leb c 122 then Some (Z.of_N c - 87)
  else if N.leb 65 c && N.leb c 90 then Some (Z.of_N c - 55)
  else None.

Fixpoint take_radix_digits (radix : Z) (s : jsstring) : list Z :=
  match s with
  | c :: r =>
      match digit_value c with
      | Some d => if d <? radix then d :: take_radix_digits radix r else []
      | None => []
      end
  | [] => []
  end.

Definition parseInt (input : jsstring) : number :=
  let '(neg, s1) := take_sign (trimStart input) in
  let '(radix, s2) :=
    match s1 with
    | 48%N :: 120%N :: r | 48%N :: 88%N :: r => (16, r)
    | _ => (10, s1)
    end in
  match take_radix_digits radix s2 with
  | [] => NaN
  | ds => of_decimal neg (fold_left (fun acc d => acc * radix + d) ds 0) 0
  end.

(** [a !== b] on numbers *)
Definition strictNotEqual (a b : number) : bool := negb (SFeqb a b).

(** *** [Number::toString] (radix 10) *)

(** The exact value [m * 2 ^ e] as a fraction. *)
Definition exact_fraction (m : positive) (e : Z) : Z * Z :=
  if 0 <=? e then (Zpos m * 2 ^ e, 1) else (Zpos m, 2 ^ (- e)).

Definition below_pow10 (num den n : Z) : bool :=
  if 0 <=? n then num <? den * 10 ^ n else num * 10 ^ (- n) <? den.

Fixpoint find_n (fuel : nat) (num den n : Z) : Z :=
  match fuel with
  | O => n
  | S fuel' =>
      if below_pow10 num den n then n else find_n fuel' num den (n + 1)
  end.

(** The least [n] with [m * 2 ^ e < 10 ^ n]. *)
Definition decimal_exponent (m : positive) (e : Z) : Z :=
  let '(num, den) := exact_fraction m e in
  let est := ((Zpos (digits2_pos m) + e - 1) * 1233) / 4096 in
  find_n 8 num den (est - 1).

(** The value divided by [10 ^ p], as a fraction. *)
Definition scaled (num den p : Z) : Z * Z :=
  if 0 <=? p then (num, den * 10 ^ p) else (num * 10 ^ (- p), den).

(** Step 5 of [Number::toString]: the least number of digits [k] and the
    integer [s] of [k] digits with [s * 10 ^ (n - k)] rounding to the
    number; of two such [s] the one nearer to the number, the even one
    on a tie. *)
Fixpoint shortest (fuel : nat) (x : number) (num den n0 k : Z) : Z * Z :=
  let p := n0 - k in
  let '(a, b) := scaled num den p in
  let f := a / b in
  let r := a mod b in
  let lo_ok := same (of_decimal false f p) x in
  let hi_ok := negb (r =? 0) && same (of_decimal false (f + 1) p) x in
  let normal s := if s =? 10 ^ k then (10 ^ (k - 1), n0 + 1) else (s, n0) in
  let hi_nearer :=
    match 2 * r ?= b with
    | Gt => true
    | Eq => Z.odd f
    | Lt => false
    end in
  match lo_ok, hi_ok with
  | true, true => normal (if hi_nearer then f + 1 else f)
  | true, false => normal f
  | false, true => normal (f + 1)
  | false, false =>
      match fuel with
      | O => normal f
      | S fuel' => shortest fuel' x num den n0 (k + 1)
      end
  end.

(** Steps 6 to 10: the digits of [s] laid out around the decimal point
    that stands after the first [n] of them. *)
Definition layout (ds : jsstring) (n : Z) : jsstring :=
  let k := Z.of_nat (List.length ds) in
  if (k <=? n) && (n <=? 21) then ds ++ repeat 48%N (Z.to_nat (n - k))
  else if (0 <? n) && (n <=? 21) then
    firstn (Z.to_nat n) ds ++ str "." ++ skipn (Z.to_nat n) ds
  else if (-6 <? n) && (n <=? 0) then
    str "0." ++ repeat 48%N (Z.to_nat (- n)) ++ ds
  else
    let e := n - 1 in
    let sign := if e <? 0 then str "-" else str "+" in
    match ds with
    | [d] => [d] ++ str "e" ++ sign ++ numeral (Z.abs e)
    | d :: rest => [d] ++ str "." ++ rest ++ str "e" ++ sign ++ numeral (Z.abs e)
    | [] => []
    end.

Definition toString (x : number) : jsstring :=
  match x with
  | S754_nan => str "NaN"
  | S754_zero _ => str "0"
  | S754_infinity s => if s then str "-Infinity" else str "Infinity"
  | S754_finite s m e =>
      let '(num, den) := exact_fraction m e in
      let '(digits, n) :=
        shortest 16 (S754_finite false m e) num den (decimal_exponent m e) 1 in
      (if s then str "-" else []) ++ layout (numeral digits) n
  end.

(** *** Vocabulary of the statements about numbers *)

(** A decimal numeral: an optional sign, digits and, optionally, a point
    followed by digits, and nothing else.  [decimalNumeral s] is the
    sign, the integer that the digits write and the number of digits
    after the point. *)
Definition decimalNumeral (s : jsstring) : option (bool * Z * nat) :=
  let '(neg, s1) := take_sign s in
  let '(ip, s2) := take_digits s1 in
  match ip, s2 with
  | _ :: _, [] => Some (neg, digits_value ip, 0%nat)
  | _ :: _, 46%N :: r =>
      let '(fp, s3) := take_digits r in
      match fp, s3 with
      | _ :: _, [] => Some (neg, digits_value (ip ++ fp), List.length fp)
      | _, _ => None
      end
  | _, _ => None
  end.

(** [s] is the decimal numeral of a number between [- bound] and
    [bound]. *)
Definition numeralWithin (bound : Z) (s : jsstring) : bool :=
  match decimalNumeral s with
  | Some (_, m, k) => m <=? bound * 10 ^ Z.of_nat k
  | None => false
  end.

(** [x] is finite and between [- bound] and [bound]. *)
Definition within (bound : Z) (x : number) : bool :=
  isFinite x && lessOrEqual (of_Z (- bound)) x && lessOrEqual x (of_Z bound).

(** The invariant of the shifts of a rounding.  The mantissa of the
    record, counted in units of [2 ^ E], stands for the fraction [N / D]:
    it nowhere exceeds the fraction, and does not reach it once a bit
    that was set has been shifted out. *)
Definition below (N D : Z) (rec : shr_record) (E : Z) : Prop :=
  0 <= shr_m rec /\
  shr_m rec * 2 ^ E * D <= N /\
  (shr_r rec || shr_s rec = true -> shr_m rec * 2 ^ E * D < N).

End JsNumber.
Import JsNumber.

(* ================================================================== *)
(** ** JavaScript values, exceptions and effects *)
(* ================================================================== *)

Module Js.

(** The values the program handles: what [JSON.parse] builds, [undefined],
    and the members a plain object inherits from [Object.prototype]
    (functions, known by their name). *)
Inductive value : Type :=
| VUndefined
| VNull
| VBool (b : bool)
| VNum (n : number)
| VStr (s : jsstring)
| VArr (elements : list value)
| VObj (properties : list (jsstring * value))
| VNative (name : jsstring).

Fixpoint assoc {A : Type} (key : jsstring) (l : list (jsstring * A)) : option A :=
  match l with
  | [] => None
  | (k, v) :: r => if JsString.eqb key k then Some v else assoc key r
  end.

(** What the program can throw or have thrown at it. *)
Inductive exn : Type :=
| Error (message : jsstring)
    (** [throw new Error(message)] *)
| CannotRead (base : value) (key : jsstring)
    (** the [TypeError] of reading property [key] of [undefined] or [null] *)
| CannotConvert
    (** the [TypeError] of converting to a string an object that has no
        [toString] to call *)
| FetchFailed
    (** the [TypeError] [fetch] rejects with when no response arrives *)
| JsonSyntaxError
    (** the [SyntaxError] of [response.json()] on a body that is not JSON *)
| ZodError (issues : list jsstring).
    (** the rejection of [schema.parseAsync] *)

(** Steps that can throw, one after the other. *)
Definition andThen {A B : Type} (r : exn + A) (k : A -> exn + B) : exn + B :=
  match r with
  | inl e => inl e
  | inr a => k a
  end.

(** The text that [ToString] gives a value, [None] when the conversion
    throws.  A plain object is printed by the [toString] that is found on
    it: the inherited one prints ["[object Object]"]; an own member
    [toString] hides it and, in a value that [JSON.parse] built, is never
    a function, so that the conversion falls back on [valueOf], gets the
    object again and throws.  An array joins the texts of its elements,
    those of [undefined] and [null] being empty. *)
Fixpoint text (v : value) : option jsstring :=
  match v with
  | VUndefined => Some (str "undefined")
  | VNull => Some (str "null")
  | VBool b => Some (if b then str "true" else str "false")
  | VNum n => Some (toString n)
  | VStr s => Some s
  | VArr elements =>
      (fix join (l : list value) : option jsstring :=
         let element x :=
           match x with
           | VUndefined | VNull => Some []
           | _ => text x
           end in
         match l with
         | [] => Some []
         | [x] => element x
         | x :: r =>
             match element x, join r with
             | Some first, Some others => Some (first ++ str "," ++ others)
             | _, _ => None
             end
         end) elements
  | VObj properties =>
      match assoc (str "toString") properties with
      | Some _ => None
      | None => Some (str "[object Object]")
      end
  | VNative name => Some (str "function " ++ name ++ str "() { [native code] }")
  end.

(** [ToString], the conversion of template literals, of property keys and
    of the argument of [parseFloat]. *)
Definition ToString (v : value) : exn + jsstring :=
  match text v with
  | Some s => inr s
  | None => inl CannotConvert
  end.

(** [ToBoolean], the test of [!x] and [x || y]. *)
Definition ToBoolean (v : value) : bool :=
  match v with
  | VUndefined | VNull => false
  | VBool b => b
  | VNum n =>
      match n with
      | S754_zero _ | S754_nan => false
      | _ => true
      end
  | VStr s =>
      match s with
      | [] => false
      | _ => true
      end
  | VArr _ | VObj _ | VNative _ => true
  end.

(** [a || b] *)
Definition logical_or (a b : value) : value := if ToBoolean a then a else b.

(** What a plain object inherits: the members of [Object.prototype].
    [constructor] is the function [Object]; [__proto__] reads as the
    prototype itself, an object. *)
Definition Object_prototype (key : jsstring) : value :=
  if JsString.eqb key (str "constructor") then VNative (str "Object")
  else if JsString.eqb key (str "__proto__") then VObj []
  else if existsb (JsString.eqb key)
            [str "hasOwnProperty"; str "isPrototypeOf";
             str "propertyIsEnumerable"; str "toLocaleString";
             str "toString"; str "valueOf";
             str "__defineGetter__"; str "__defineSetter__";
             str "__lookupGetter__"; str "__lookupSetter__"]
  then VNative key
  else VUndefined.

(** An array index as a property key: the decimal numeral of an integer
    below [2 ^ 32 - 1], with no leading zero. *)
Definition array_index (key : jsstring) : option nat :=
  match take_digits key with
  | (d :: ds, []) =>
      let i := digits_value (d :: ds) in
      if (negb (N.eqb d 48) || match ds with [] => true | _ => false end)
         && (i <? 2 ^ 32 - 1)
      then Some (Z.to_nat i) else None
  | _ => None
  end.

(** [v[key]] for a [v] that is neither [undefined] nor [null].  Objects
    have their own properties and those of [Object.prototype]; arrays and
    strings have their elements and [length] (their inherited methods are
    not modelled: the program reads response data only at fixed field
    names and at keys made from numbers, and no method has such a name). *)
Definition lookup (v : value) (key : jsstring) : value :=
  match v with
  | VObj properties =>
      match assoc key properties with
      | Some x => x
      | None => Object_prototype key
      end
  | VArr elements =>
      match array_index key with
      | Some i => nth i elements VUndefined
      | None =>
          if JsString.eqb key (str "length")
          then VNum (of_Z (Z.of_nat (List.length elements)))
          else VUndefined
      end
  | VStr s =>
      match array_index key with
      | Some i =>
          match nth_error s i with
          | Some c => VStr [c]
          | None => VUndefined
          end
      | None =>
          if JsString.eqb key (str "length")
          then VNum (of_Z (Z.of_nat (List.length s)))
          else VUndefined
      end
  | _ => VUndefined
  end.

(** [Object.hasOwn(v, key)] for a plain object. *)
Definition hasOwn (v : value) (key : jsstring) : bool :=
  match v with
  | VObj properties =>
      match assoc key properties with
      | Some _ => true
      | None => false
      end
  | _ => false
  end.

(** [obj.key = x] on a plain object: an own property is overwritten in
    place, a new one is added last. *)
Fixpoint set (key : jsstring) (x : value) (properties : list (jsstring * value))
  : list (jsstring * value) :=
  match properties with
  | [] => [(key, x)]
  | (k, v) :: r =>
      if JsString.eqb key k then (k, x) :: r else (k, v) :: set key x r
  end.

(** [v.key], raising as the runtime does on [undefined] and [null]. *)
Definition get (v : value) (key : jsstring) : exn + value :=
  match v with
  | VUndefined | VNull => inl (CannotRead v key)
  | _ => inr (lookup v key)
  end.

(** *** The network *)

(** A response as the program observes it: its [ok] flag and what
    [response.json()] resolves to ([None] when the body is not JSON). *)
Record Response : Type := { ok : bool; body : option value }.

(** What [fetch(url)] resolves to; [None] when it rejects. *)
Definition network : Type := jsstring -> option Response.

(** *** Asynchronous computations

    An [async] function awaits its calls one after the other: it is a
    computation that, given the network, ends by returning or throwing
    and has requested a list of URLs, in order. *)
Definition M (A : Type) : Type := network -> (exn + A) * list jsstring.

Definition ret {A} (a : A) : M A := fun _ => (inr a, []).

Definition throw {A} (e : exn) : M A := fun _ => (inl e, []).

Definition bind {A B} (m : M A) (k : A -> M B) : M B :=
  fun net =>
    match m net with
    | (inl e, reqs) => (inl e, reqs)
    | (inr a, reqs) => let '(r, reqs') := k a net in (r, reqs ++ reqs')
    end.

Definition lift {A} (r : exn + A) : M A := fun _ => (r, []).

(** [await fetch(url)] *)
Definition fetch (url : jsstring) : M Response :=
  fun net =>
    match net url with
    | Some response => (inr response, [url])
    | None => (inl FetchFailed, [url])
    end.

(** [await response.json()] *)
Definition json (response : Response) : M value :=
  match body response with
  | Some data => ret data
  | None => throw JsonSyntaxError
  end.

(** The outcome and the requests of a run. *)
Definition outcome {A} (m : M A) (net : network) : exn + A := fst (m net).
Definition requests {A} (m : M A) (net : network) : list jsstring := snd (m net).

End Js.
Import Js.

Notation "x <- m ;; k" := (bind m (fun x => k))
  (at level 61, m at next level, right associativity).

Notation "x <~ r ;; k" := (andThen r (fun x => k))
  (at level 61, r at next level, right associativity).

(* ================================================================== *)
(** ** weather.ts *)
(* ================================================================== *)

Module Weather.

Record Coordinates : Type := { lat : number; lon : number }.

(** The fields hold what the response held: the interface is not checked
    at run time. *)
Record WeatherData : Type := {
  date : value;
  maxTemp : value;
  minTemp : value;
  precipitation : value;
  weatherCode : value;
  weatherDescription : value
}.

(** Weather code descriptions based on WMO codes.  The numeric literal
    keys of the source are the property names ["0"], ["1"], ... *)
Definition weatherCodes : value :=
  VObj
    [ (str "0", VStr (str "Clear sky"));
      (str "1", VStr (str "Mainly clear"));
      (str "2", VStr (str "Partly cloudy"));
      (str "3", VStr (str "Overcast"));
      (str "45", VStr (str "Foggy"));
      (str "48", VStr (str "Depositing rime fog"));
      (str "51", VStr (str "Light drizzle"));
      (str "53", VStr (str "Moderate drizzle"));
      (str "55", VStr (str "Dense drizzle"));
      (str "61", VStr (str "Slight rain"));
      (str "63", VStr (str "Moderate rain"));
      (str "65", VStr (str "Heavy rain"));
      (str "71", VStr (str "Slight snow"));
      (str "73", VStr (str "Moderate snow"));
      (str "75", VStr (str "Heavy snow"));
      (str "77", VStr (str "Snow grains"));
      (str "80", VStr (str "Slight rain showers"));
      (str "81", VStr (str "Moderate rain showers"));
      (str "82", VStr (str "Violent rain showers"));
      (str "85", VStr (str "Slight snow showers"));
      (str "86", VStr (str "Heavy snow showers"));
      (str "95", VStr (str "Thunderstorm"));
      (str "96", VStr (str "Thunderstorm with slight hail"));
      (str "99", VStr (str "Thunderstorm with heavy hail")) ].

Definition geocodeUrl (zipCode : jsstring) : jsstring :=
  str "https://api.zippopotam.us/us/" ++ zipCode.

(** Convert ZIP code to coordinates using zippopotam.us API *)
Definition getCoordinatesFromZip (zipCode : jsstring) : M Coordinates :=
  response <- fetch (geocodeUrl zipCode) ;;
  if negb (ok response) then
    throw (Error (str "Failed to fetch coordinates for ZIP code " ++ zipCode))
  else
    data <- json response ;;
    places <- lift (get data (str "places")) ;;
    place <- lift (get places (str "0")) ;;
    (* parseFloat converts its argument to a string first *)
    latitude <- lift (get place (str "latitude")) ;;
    latitudeText <- lift (ToString latitude) ;;
    longitude <- lift (get place (str "longitude")) ;;
    longitudeText <- lift (ToString longitude) ;;
    ret {| lat := parseFloat latitudeText; lon := parseFloat longitudeText |}.

Definition forecastUrl (lat lon forecastDays : number) : jsstring :=
  str "https://api.open-meteo.com/v1/forecast?latitude=" ++ toString lat
  ++ str "&longitude=" ++ toString lon
  ++ str "&daily=temperature_2m_max,temperature_2m_min,precipitation_sum,weather_code&temperature_unit=fahrenheit&timezone=America/New_York&forecast_days="
  ++ toString forecastDays.

(** [data.daily.field[nextday]] *)
Definition daily (data : value) (field : jsstring) (nextday : number)
  : exn + value :=
  match get data (str "daily") with
  | inl e => inl e
  | inr d =>
      match get d field with
      | inl e => inl e
      | inr series => get series (toString nextday)
      end
  end.

(** Get weather forecast for a specific future day using Open-Meteo API *)
Definition getWeather (lat lon nextday : number) : M WeatherData :=
  if lessThan nextday (of_Z 0) || greaterThan nextday (of_Z 16) then
    throw (Error (str "nextday must be between 0 and 16 (Open-Meteo free tier limit)"))
  else
    (* Request enough forecast days to cover the requested day *)
    let forecastDays := add nextday (of_Z 1) in
    let url := forecastUrl lat lon forecastDays in
    response <- fetch url ;;
    if negb (ok response) then
      throw (Error (str "Failed to fetch weather data"))
    else
      data <- json response ;;
      (* Get the weather for the specified day *)
      weatherCode <- lift (daily data (str "weather_code") nextday) ;;
      date <- lift (daily data (str "time") nextday) ;;
      maxTemp <- lift (daily data (str "temperature_2m_max") nextday) ;;
      minTemp <- lift (daily data (str "temperature_2m_min") nextday) ;;
      precipitation <- lift (daily data (str "precipitation_sum") nextday) ;;
      (* the property key of weatherCodes[weatherCode] *)
      key <- lift (ToString weatherCode) ;;
      ret {| date := date;
             maxTemp := maxTemp;
             minTemp := minTemp;
             precipitation := precipitation;
             weatherCode := weatherCode;
             weatherDescription :=
               logical_or (lookup weatherCodes key) (VStr (str "Unknown")) |}.

(** Get weather forecast by ZIP code for a specific future day *)
Definition getWeatherByZip (zipCode : jsstring) (daysAhead : number)
  : M WeatherData :=
  coords <- getCoordinatesFromZip zipCode ;;
  getWeather (lat coords) (lon coords) daysAhead.

(** Format weather data into a readable string.  The template literal
    converts its substitutions to strings, from left to right. *)
Definition formatWeather (weather : WeatherData) : exn + jsstring :=
  date <~ ToString (date weather) ;;
  condition <~ ToString (weatherDescription weather) ;;
  high <~ ToString (maxTemp weather) ;;
  low <~ ToString (minTemp weather) ;;
  rain <~ ToString (precipitation weather) ;;
  description <~ ToString (weatherDescription weather) ;;
  inr (trim
         (LF ++ str "Weather Forecast for " ++ date
          ++ LF ++ str "Condition: " ++ condition
          ++ LF ++ str "High: " ++ high ++ DEGREE ++ str "F"
          ++ LF ++ str "Low: " ++ low ++ DEGREE ++ str "F"
          ++ LF ++ str "Precipitation: " ++ rain ++ str " mm"
          ++ LF ++ str "Description: " ++ description
          ++ LF ++ str "  ")).

Definition getReadableWeatherByZip (zipCode : jsstring) (daysAhead : number)
  : M jsstring :=
  weather <- getWeatherByZip zipCode daysAhead ;;
  lift (formatWeather weather).

(** *** CLI Script execution - only runs when executed directly

    What a run of the script leaves behind: the strings its
    [console.log] calls print, the lines its [console.error] calls
    print, its exit code, and the URLs it requested. *)
Record Process : Type := {
  stdout : list jsstring;
  stderr : list jsstring;
  exitCode : Z;
  sent : list jsstring
}.

(** The emoji U+1F324 U+FE0F, two blanks and the title. *)
Definition banner : jsstring :=
  [55356; 57124; 65039]%N ++ str "  Weather Forecast CLI" ++ LF.

Definition usage : jsstring := str "Usage: deno -A weather.ts [zipcode] [days]".

(** [error.message].  Every exception of the program is an instance of
    [Error]; the message of one the runtime raised itself is the
    runtime's text, [runtimeMessage]. *)
Definition message (runtimeMessage : exn -> jsstring) (e : exn) : jsstring :=
  match e with
  | Error m => m
  | _ => runtimeMessage e
  end.

Definition cli (runtimeMessage : exn -> jsstring)
           (args : list jsstring) (net : network) : Process :=
  (* Default values: an argument that is missing reads [undefined] *)
  let zipCode :=
    match nth_error args 0 with
    | Some arg => if ToBoolean (VStr arg) then arg else str "02148"
    | None => str "02148"
    end in
  let daysAhead :=
    match nth_error args 1 with
    | Some arg => if ToBoolean (VStr arg) then parseInt arg else of_Z 1
    | None => of_Z 1
    end in
  if existsb (JsString.eqb (str "--help")) args
     || existsb (JsString.eqb (str "-h")) args
  then
    {| stdout := [banner; usage]; stderr := []; exitCode := 0; sent := [] |}
  else
    let fetching :=
      str "Fetching weather for ZIP code " ++ zipCode ++ str " ("
      ++ toString daysAhead ++ str " day"
      ++ (if strictNotEqual daysAhead (of_Z 1) then str "s" else [])
      ++ str " from today)..." ++ LF in
    match getReadableWeatherByZip zipCode daysAhead net with
    | (inr block, reqs) =>
        {| stdout := [banner; fetching; block]; stderr := [];
           exitCode := 0; sent := reqs |}
    | (inl error, reqs) =>
        {| stdout := [banner; fetching];
           stderr := [str "Error: " ++ message runtimeMessage error];
           exitCode := 1; sent := reqs |}
    end.

(** *** Vocabulary of the statements *)

(** The number of line feeds of a string. *)
Definition lineFeeds (s : jsstring) : nat := count_occ N.eq_dec s 10%N.

(** The own properties of a plain object. *)
Definition ownProperties (v : value) : list (jsstring * value) :=
  match v with
  | VObj properties => properties
  | _ => []
  end.

(** The record [getWeather] returns when the response has no entry for
    the day. *)
Definition missingDay : WeatherData :=
  {| date := VUndefined;
     maxTemp := VUndefined;
     minTemp := VUndefined;
     precipitation := VUndefined;
     weatherCode := VUndefined;
     weatherDescription := VStr (str "Unknown") |}.

(** The error of the bounds check of [getWeather]. *)
Definition rangeError : exn :=
  Error (str "nextday must be between 0 and 16 (Open-Meteo free tier limit)").

(** The series [data.daily.field] when it is an array. *)
Definition dailySeries (data : value) (field : jsstring) : option (list value) :=
  match get data (str "daily") with
  | inr d =>
      match get d field with
      | inr (VArr series) => Some series
      | _ => None
      end
  | inl _ => None
  end.

(** A record is a plain object. *)
Definition isRecord (v : value) : bool :=
  match v with
  | VObj _ => true
  | _ => false
  end.

(** The place records of a response: the elements of [data.places] that
    are records. *)
Definition placeRecords (data : value) : list value :=
  match get data (str "places") with
  | inr (VArr places) => filter isRecord places
  | _ => []
  end.

(** [data.places[0]] when there is something to read the coordinates
    from: [None] when the body is [null], when [places] is missing or
    [null], when it has no member [0] (an empty list among others) and
    when that member is [null]. *)
Definition firstPlace (data : value) : option value :=
  match get data (str "places") with
  | inr places =>
      match get places (str "0") with
      | inr VUndefined | inr VNull | inl _ => None
      | inr place => Some place
      end
  | inl _ => None
  end.

(** Both coordinates are finite, the latitude is between -90 and 90 and
    the longitude between -180 and 180. *)
Definition validCoordinates (c : Coordinates) : bool :=
  isFinite (lat c) && isFinite (lon c)
  && lessOrEqual (of_Z (-90)) (lat c) && lessOrEqual (lat c) (of_Z 90)
  && lessOrEqual (of_Z (-180)) (lon c) && lessOrEqual (lon c) (of_Z 180).

(** A record that conforms to the interface [WeatherData]: the date and
    the description are strings, the readings and the code are numbers. *)
Definition conforming (day description : jsstring) (high low rain code : number)
  : WeatherData :=
  {| date := VStr day;
     maxTemp := VNum high;
     minTemp := VNum low;
     precipitation := VNum rain;
     weatherCode := VNum code;
     weatherDescription := VStr description |}.

(** The fields that [formatWeather] prints: all but the weather code. *)
Definition printed (weather : WeatherData) : list value :=
  [ date weather; weatherDescription weather; maxTemp weather;
    minTemp weather; precipitation weather ].

(** The part of the rendered block that stands before the description's
    second occurrence, for the texts of the date, the description and the
    three readings. *)
Definition heading (day description high low rain : jsstring) : jsstring :=
  str "Weather Forecast for " ++ day
  ++ LF ++ str "Condition: " ++ description
  ++ LF ++ str "High: " ++ high ++ DEGREE ++ str "F"
  ++ LF ++ str "Low: " ++ low ++ DEGREE ++ str "F"
  ++ LF ++ str "Precipitation: " ++ rain ++ str " mm"
  ++ LF ++ str "Description:".

(** The block is returned and the description is shown twice in it:
    after [Condition:] and, further down, after [Description:]. *)
Definition shows_description_twice (weather : WeatherData) : Prop :=
  exists description pre mid post,
    ToString (weatherDescription weather) = inr description /\
    formatWeather weather =
    inr (pre ++ (str "Condition: " ++ description) ++ mid
             ++ (str "Description: " ++ description) ++ post).

(** A record as [getWeather] builds it for an unmapped code, and one
    whose description ends in a space. *)
Definition unknownRecord : WeatherData :=
  {| date := VStr (str "2024-06-01");
     maxTemp := VNum (of_Z 75);
     minTemp := VNum (of_Z 60);
     precipitation := VNum (of_Z 0);
     weatherCode := VNum (of_Z 4);
     weatherDescription := VStr (str "Unknown") |}.

Definition trailingSpaceRecord : WeatherData :=
  {| date := VStr (str "2024-06-01");
     maxTemp := VNum (of_Z 75);
     minTemp := VNum (of_Z 60);
     precipitation := VNum (of_Z 0);
     weatherCode := VNum (of_Z 45);
     weatherDescription := VStr (str "Foggy ") |}.

(** *** The scenario of the specification

    The address service knows the ZIP code 02148 and answers 404 for any
    other; the forecast service answers every request with a series of
    one day whose weather code is [code]. *)
Definition geocodeBody : value :=
  VObj [ (str "post code", VStr (str "02148"));
         (str "places",
          VArr [ VObj [ (str "place name", VStr (str "Malden"));
                        (str "latitude", VStr (str "42.49"));
                        (str "longitude", VStr (str "-71.07")) ] ]) ].

Definition forecastBody (code : value) : value :=
  VObj [ (str "daily",
          VObj [ (str "time", VArr [VStr (str "2024-06-01")]);
                 (str "temperature_2m_max", VArr [VNum (of_Z 75)]);
                 (str "temperature_2m_min", VArr [VNum (of_Z 60)]);
                 (str "precipitation_sum", VArr [VNum (of_Z 0)]);
                 (str "weather_code", VArr [code]) ]) ].

(** A successful answer of the address service whose place record has
    no usable coordinates. *)
Definition strayBody : value :=
  VObj [ (str "post code", VStr (str "99999"));
         (str "places",
          VArr [ VObj [ (str "place name", VStr (str "Nowhere"));
                        (str "latitude", VStr (str ""));
                        (str "longitude", VStr (str "1000")) ] ]) ].

Definition strayNetwork : network :=
  fun _ => Some {| ok := true; body := Some strayBody |}.

(** A successful answer of the address service in which [places] holds
    no record. *)
Definition noRecordBody : value :=
  VObj [ (str "post code", VStr (str "00000"));
         (str "places", VArr [VNum (of_Z 5)]) ].

Definition scenario (code : value) : network :=
  fun url =>
    if startsWith (str "https://api.zippopotam.us/us/") url then
      if JsString.eqb url (str "https://api.zippopotam.us/us/02148")
      then Some {| ok := true; body := Some geocodeBody |}
      else Some {| ok := false; body := Some (VObj []) |}
    else if startsWith (str "https://api.open-meteo.com/v1/forecast?") url
    then Some {| ok := true; body := Some (forecastBody code) |}
    else None.

End Weather.
Import Weather.

(* ================================================================== *)
(** ** main.ts *)
(* ================================================================== *)

(** Helper function to safely get environment variables.  [env] is
    [Deno.env.get]: the value of a variable, [None] for [undefined]. *)
Definition getRequiredEnv (env : jsstring -> option jsstring) (name : jsstring)
  : exn + jsstring :=
  let value := env name in
  let notSet :=
    inl (Error (str "Environment variable " ++ name ++ str " is not set")) in
  match value with
  | Some v => if negb (ToBoolean (VStr v)) then notSet else inr v
  | None => (* [!undefined] *) notSet
  end.

(** What the program uses of a zod object schema: its validation.  A
    payload is either rejected, with the issues found, or parsed to a
    typed value. *)
Record ZodObject (T : Type) : Type := { parse : value -> list jsstring + T }.
Arguments parse {T} _ _.

(** [await schema.parseAsync(params)]: a rejection is a [ZodError]. *)
Definition parseAsync {T} (schema : ZodObject T) (params : value) : M T :=
  match parse schema params with
  | inl issues => throw (ZodError issues)
  | inr validated => ret validated
  end.

Module Options.
Record t (T Ctx ToolResult : Type) : Type := {
  name : jsstring;
  description : jsstring;
  schema : ZodObject T;
  execute : T -> Ctx -> M ToolResult
}.
Arguments name {T Ctx ToolResult} _.
Arguments description {T Ctx ToolResult} _.
Arguments schema {T Ctx ToolResult} _.
Arguments execute {T Ctx ToolResult} _ _ _.
End Options.

Module Tool.
Record t (Ctx ToolResult : Type) : Type := {
  name : jsstring;
  description : jsstring;
  parameters : value;
  execute : value -> Ctx -> M ToolResult
}.
Arguments name {Ctx ToolResult} _.
Arguments description {Ctx ToolResult} _.
Arguments parameters {Ctx ToolResult} _.
Arguments execute {Ctx ToolResult} _ _ _.
End Tool.

(** The parameters of the [weatherForcasting] tool, once validated. *)
Record ForecastParams : Type := { zipcode : jsstring; daysAhead : number }.

Section Main.

Context {Ctx : Type}.

(** [zodToJsonSchema(schema, { target: "jsonSchema7" })] of the library
    zod-to-json-schema: the properties of the JSON Schema object it
    builds for a schema. *)
Variable zodToJsonSchema : forall T, ZodObject T -> list (jsstring * value).

(** Re-implement createTool(), ensure the parameters have the type field *)
Definition createTool {T ToolResult} (options : Options.t T Ctx ToolResult)
  : Tool.t Ctx ToolResult :=
  (* Convert Zod schema to JSON Schema *)
  let jsonSchema := zodToJsonSchema T (Options.schema options) in
  (* Ensure type is set at root level *)
  let jsonSchema :=
    if negb (ToBoolean (lookup (VObj jsonSchema) (str "type")))
    then set (str "type") (VStr (str "object")) jsonSchema
    else jsonSchema in
  {| Tool.name := Options.name options;
     Tool.description := Options.description options;
     Tool.parameters := VObj jsonSchema;
     Tool.execute := fun params ctx =>
       validatedParams <- parseAsync (Options.schema options) params ;;
       Options.execute options validatedParams ctx |}.

(** Create a custom tool.  The schema is the object
    [z.object({ zipcode: z.string(), daysAhead: z.number().int() })]. *)
Definition weatherForcasting (schema : ZodObject ForecastParams)
  : Tool.t Ctx jsstring :=
  createTool
    {| Options.name := str "weatherForcasting";
       Options.description :=
         str "Get the weather forecast for a U.S. zipcode for N days ahead";
       Options.schema := schema;
       Options.execute := fun params _ =>
         getReadableWeatherByZip (zipcode params) (daysAhead params) |}.

End Main.

(** [Number.isSafeInteger]: an integer between [-(2 ^ 53 - 1)] and
    [2 ^ 53 - 1]. *)
Definition isSafeInteger (x : number) : bool :=
  isInteger x
  && lessOrEqual (of_Z (- (2 ^ 53 - 1))) x && lessOrEqual x (of_Z (2 ^ 53 - 1)).

(** The validation of
    [z.object({ zipcode: z.string(), daysAhead: z.number().int() })] as
    zod 4 documents it: the payload is an object, [zipcode] is a string,
    [daysAhead] is a number that is a safe integer; each issue names
    the field it is about.  Unknown fields are dropped.  The tool is run
    on this schema in the examples; the statements about [createTool]
    hold for every schema. *)
Definition forecastSchema : ZodObject ForecastParams :=
  {| parse := fun payload =>
       match payload with
       | VObj properties =>
           let zip := lookup payload (str "zipcode") in
           let days := lookup payload (str "daysAhead") in
           match zip, days with
           | VStr z, VNum d =>
               if isSafeInteger d then inr {| zipcode := z; daysAhead := d |}
               else inl [str "daysAhead"]
           | VStr _, _ => inl [str "daysAhead"]
           | _, VNum d =>
               if isSafeInteger d then inl [str "zipcode"]
               else inl [str "zipcode"; str "daysAhead"]
           | _, _ => inl [str "zipcode"; str "daysAhead"]
           end
       | _ => inl [[]]
       end |}.

(** A conversion that describes the fields of a schema and leaves the
    root type out. *)
Definition untypedConversion (T : Type) (schema : ZodObject T)
  : list (jsstring * value) :=
  [ (str "properties",
     VObj [ (str "zipcode", VObj [(str "type", VStr (str "string"))]);
            (str "daysAhead", VObj [(str "type", VStr (str "integer"))]) ]);
    (str "required", VArr [VStr (str "zipcode"); VStr (str "daysAhead")]) ].

(** The payload of the specification, and one that lacks [zipcode]. *)
Definition goodPayload : value :=
  VObj [ (str "zipcode", VStr (str "02148")); (str "daysAhead", VNum (of_Z 0)) ].

Definition badPayload : value :=
  VObj [ (str "daysAhead", VNum (of_Z 0)) ].

(* ================================================================== *)
(** ** Facts about strings *)
(* ================================================================== *)

Module JsStringFacts.

Lemma eqb_eq (a b : jsstring) : JsString.eqb a b = true <-> a = b.
Proof.
  revert b; induction a as [|x a IH]; intros [|y b]; simpl; split;
    try discriminate; try reflexivity.
  - intros H. apply andb_true_iff in H as [Hx Hr].
    apply N.eqb_eq in Hx. apply IH in Hr. congruence.
  - intros H. injection H as -> ->.
    rewrite N.eqb_refl. apply IH. reflexivity.
Qed.

Lemma eqb_refl (a : jsstring) : JsString.eqb a a = true.
Proof. apply eqb_eq. reflexivity. Qed.

Lemma startsWith_spec (p s : jsstring) :
  startsWith p s = true <-> exists post, s = p ++ post.
Proof.
  revert s; induction p as [|x p IH]; intros s; simpl.
  - split; [intros _; exists s; reflexivity | reflexivity].
  - destruct s as [|y s].
    + split; [discriminate | intros [post H]; discriminate].
    + rewrite andb_true_iff, N.eqb_eq, IH. split.
      * intros [-> [post ->]]. exists post. reflexivity.
      * intros [post H]. injection H as -> ->. split; [reflexivity|].
        exists post. reflexivity.
Qed.

Lemma includes_spec (p s : jsstring) :
  includes p s = true <-> contains p s.
Proof.
  unfold contains. induction s as [|y s IH].
  - simpl. rewrite orb_false_r, startsWith_spec. split.
    + intros [post H]. exists [], post. exact H.
    + intros [pre [post H]]. destruct pre; [exists post; exact H|discriminate].
  - cbn [includes]. rewrite orb_true_iff, startsWith_spec, IH. split.
    + intros [[post H] | [pre [post H]]].
      * exists [], post. exact H.
      * exists (y :: pre), post. rewrite H. reflexivity.
    + intros [[|z pre] [post H]].
      * left. exists post. exact H.
      * right. injection H as _ H. exists pre, post. exact H.
Qed.

Lemma contains_here (a sub b : jsstring) : contains sub (a ++ sub ++ b).
Proof. exists a, b. reflexivity. Qed.

Lemma contains_app_r (a s sub : jsstring) : contains sub s -> contains sub (a ++ s).
Proof.
  intros [pre [post ->]]. exists (a ++ pre), post.
  rewrite <- app_assoc. reflexivity.
Qed.

Lemma has_ink_app_r (a b : jsstring) : has_ink b = true -> has_ink (a ++ b) = true.
Proof.
  unfold has_ink. rewrite forallb_app, !negb_true_iff.
  intros ->. apply andb_false_r.
Qed.

Lemma has_ink_app_l (a b : jsstring) : has_ink a = true -> has_ink (a ++ b) = true.
Proof.
  unfold has_ink. rewrite forallb_app, !negb_true_iff.
  intros ->. reflexivity.
Qed.

Lemma trimStart_ink (c : code_unit) (s : jsstring) :
  is_ws c = false -> trimStart (c :: s) = c :: s.
Proof. intros H. simpl. rewrite H. reflexivity. Qed.

Lemma trimStart_white (c : code_unit) (s : jsstring) :
  is_ws c = true -> trimStart (c :: s) = trimStart s.
Proof. intros H. simpl. rewrite H. reflexivity. Qed.

Lemma trimEnd_app (a b : jsstring) :
  has_ink b = true -> trimEnd (a ++ b) = a ++ trimEnd b.
Proof.
  intros Hb. induction a as [|x a IH]; [reflexivity|].
  change ((x :: a) ++ b) with (x :: (a ++ b)).
  cbn [trimEnd]. rewrite IH.
  pose proof (has_ink_app_r (x :: a) b Hb) as H.
  unfold has_ink in H. rewrite negb_true_iff in H.
  change ((x :: a) ++ b) with (x :: (a ++ b)) in H.
  rewrite H. reflexivity.
Qed.

Lemma trimEnd_after_ink (a b : jsstring) (c : code_unit) :
  is_ws c = false -> trimEnd ((a ++ [c]) ++ b) = (a ++ [c]) ++ trimEnd b.
Proof.
  intros Hc. induction a as [|x a IH].
  - simpl. rewrite Hc. reflexivity.
  - change (((x :: a) ++ [c]) ++ b) with (x :: ((a ++ [c]) ++ b)).
    cbn [trimEnd]. rewrite IH. cbn [forallb].
    rewrite !forallb_app. cbn [forallb].
    rewrite Hc, andb_false_r, andb_false_r. reflexivity.
Qed.

Lemma trimEnd_white (s : jsstring) : forallb is_ws s = true -> trimEnd s = [].
Proof. destruct s as [|c s]; [reflexivity|]. intros H. cbn [trimEnd]. rewrite H. reflexivity. Qed.

Lemma trimEnd_app_white (s t : jsstring) :
  forallb is_ws t = true -> trimEnd (s ++ t) = trimEnd s.
Proof.
  intros Ht. induction s as [|c s IH].
  - simpl. rewrite trimEnd_white by exact Ht. reflexivity.
  - change ((c :: s) ++ t) with (c :: (s ++ t)). cbn [trimEnd].
    rewrite IH. change (c :: s ++ t) with ((c :: s) ++ t).
    rewrite forallb_app, Ht, andb_true_r. reflexivity.
Qed.

Lemma trimEnd_fixed_ink (s : jsstring) :
  s <> [] -> trimEnd s = s -> has_ink s = true.
Proof.
  intros Hne Hfix. unfold has_ink. destruct (forallb is_ws s) eqn:E; [|reflexivity].
  rewrite trimEnd_white in Hfix by exact E. congruence.
Qed.

Lemma trimEnd_cons_fixed (c : code_unit) (s : jsstring) :
  s <> [] -> trimEnd s = s -> trimEnd (c :: s) = c :: s.
Proof.
  intros Hne Hfix.
  change (c :: s) with ([c] ++ s).
  rewrite trimEnd_app by (apply trimEnd_fixed_ink; assumption).
  rewrite Hfix. reflexivity.
Qed.

End JsStringFacts.
Import JsStringFacts.

(* ================================================================== *)
(** ** formatWeather *)
(* ================================================================== *)

Module FormatFacts.

Ltac ink :=
  repeat (first [ apply has_ink_app_l; reflexivity | apply has_ink_app_r ]).

(** [trim] removes the line feed that opens the template and, at the end,
    the closing line and whatever white space the description ends in. *)
Lemma trim_template (day condition high low rain description : jsstring) :
  trim (LF ++ str "Weather Forecast for " ++ day
        ++ LF ++ str "Condition: " ++ condition
        ++ LF ++ str "High: " ++ high ++ DEGREE ++ str "F"
        ++ LF ++ str "Low: " ++ low ++ DEGREE ++ str "F"
        ++ LF ++ str "Precipitation: " ++ rain ++ str " mm"
        ++ LF ++ str "Description: " ++ description
        ++ LF ++ str "  ")
  = heading day condition high low rain ++ trimEnd (str " " ++ description).
Proof.
  unfold trim, heading.
  change (LF ++ str "Weather Forecast for " ++ ?x)
    with (10%N :: 87%N :: str "eather Forecast for " ++ x).
  rewrite trimStart_white by reflexivity.
  rewrite trimStart_ink by reflexivity.
  change (87%N :: str "eather Forecast for " ++ ?x)
    with (str "Weather Forecast for " ++ x).
  change (str "Description: " ++ ?x)
    with ((str "Description" ++ [58%N]) ++ str " " ++ x).
  rewrite <- !app_assoc.
  repeat (rewrite trimEnd_app by ink; apply f_equal).
  rewrite (app_assoc (str "Description")).
  rewrite trimEnd_after_ink by reflexivity.
  change (str "Description" ++ [58%N]) with (str "Description:").
  apply f_equal.
  rewrite (app_assoc (str " ")).
  apply trimEnd_app_white. reflexivity.
Qed.

(** The block of a record whose fields can all be converted. *)
Lemma formatWeather_shape (weather : WeatherData)
      (day description high low rain : jsstring) :
  ToString (date weather) = inr day ->
  ToString (weatherDescription weather) = inr description ->
  ToString (maxTemp weather) = inr high ->
  ToString (minTemp weather) = inr low ->
  ToString (precipitation weather) = inr rain ->
  formatWeather weather
  = inr (heading day description high low rain
         ++ trimEnd (str " " ++ description)).
Proof.
  intros Hd Hc Hh Hl Hr. unfold formatWeather.
  rewrite Hd, Hc, Hh, Hl, Hr. cbn [andThen].
  rewrite trim_template. reflexivity.
Qed.

(** A record that conforms to the interface is always formatted. *)
Lemma formatWeather_conforming
      (day description : jsstring) (high low rain code : number) :
  formatWeather (conforming day description high low rain code)
  = inr (heading day description (toString high) (toString low) (toString rain)
         ++ trimEnd (str " " ++ description)).
Proof. apply formatWeather_shape; reflexivity. Qed.

(** A field that cannot be converted makes [formatWeather] throw: here
    the date is an object with a member [toString]. *)
Example formatWeather_throws :
  let day := VObj [(str "toString", VNull)] in
  formatWeather {| date := day;
                   maxTemp := VNum (of_Z 75);
                   minTemp := VNum (of_Z 60);
                   precipitation := VNum (of_Z 0);
                   weatherCode := VNum (of_Z 1);
                   weatherDescription := VStr (str "Mainly clear") |}
  = inl CannotConvert.
Proof. reflexivity. Qed.

Lemma lineFeeds_app (a b : jsstring) :
  lineFeeds (a ++ b) = (lineFeeds a + lineFeeds b)%nat.
Proof. apply count_occ_app. Qed.

Ltac occurs :=
  first [ unfold contains; exists []; eexists; cbn [app];
          rewrite <- ?app_assoc; reflexivity
        | apply contains_app_r; occurs ].

(** C6. [formatWeather] is a function of the record; on a well-formed
    record, one that conforms to the interface [WeatherData] (a record
    whose description is ["Unknown"] among them), it does not throw: it
    returns a block of several lines in which the date, the condition
    description, the high temperature, the low temperature and the
    precipitation occur, each on its line and printed as a template
    literal prints it. *)
Theorem formatWeather_contains_fields
        (day description : jsstring) (high low rain code : number) :
  exists block,
    formatWeather (conforming day description high low rain code) = inr block /\
    (5 <= lineFeeds block)%nat /\
    contains (str "Weather Forecast for " ++ day ++ LF) block /\
    contains (str "Condition: " ++ description ++ LF) block /\
    contains (str "High: " ++ toString high ++ DEGREE ++ str "F" ++ LF) block /\
    contains (str "Low: " ++ toString low ++ DEGREE ++ str "F" ++ LF) block /\
    contains (str "Precipitation: " ++ toString rain ++ str " mm" ++ LF) block.
Proof.
  eexists. split; [apply formatWeather_conforming|].
  unfold heading. split.
  - rewrite !lineFeeds_app. change (lineFeeds LF) with 1%nat. lia.
  - rewrite <- !app_assoc. repeat split; occurs.
Qed.

(** The block of a record whose description is ["Unknown"]. *)
Example formatWeather_unknown :
  formatWeather unknownRecord =
  inr (str "Weather Forecast for 2024-06-01" ++ LF
       ++ str "Condition: Unknown" ++ LF
       ++ str "High: 75" ++ DEGREE ++ str "F" ++ LF
       ++ str "Low: 60" ++ DEGREE ++ str "F" ++ LF
       ++ str "Precipitation: 0 mm" ++ LF
       ++ str "Description: Unknown").
Proof. vm_compute. reflexivity. Qed.

(** C10, as the code has it.  For every record that conforms to
    [WeatherData] and whose description is not empty and does not end in
    white space (every entry of [weatherCodes] and ["Unknown"] are such),
    the block shows the description twice: on the [Condition:] line and
    again after [Description:], where the block ends. *)
Theorem formatWeather_description_twice
        (day description : jsstring) (high low rain code : number) :
  description <> [] ->
  trimEnd description = description ->
  shows_description_twice (conforming day description high low rain code).
Proof.
  intros Hne Hfix. unfold shows_description_twice.
  exists description.
  exists (str "Weather Forecast for " ++ day ++ LF).
  exists (LF ++ str "High: " ++ toString high ++ DEGREE ++ str "F"
          ++ LF ++ str "Low: " ++ toString low ++ DEGREE ++ str "F"
          ++ LF ++ str "Precipitation: " ++ toString rain
          ++ str " mm" ++ LF).
  exists [].
  split; [reflexivity|].
  rewrite formatWeather_conforming. unfold heading. apply f_equal.
  change (str " " ++ ?d) with (32%N :: d).
  rewrite trimEnd_cons_fixed by assumption.
  change (str "Description: " ++ ?d) with (str "Description:" ++ 32%N :: d).
  rewrite app_nil_r. rewrite <- !app_assoc. reflexivity.
Qed.

Lemma formatWeather_description_twice_witness :
  (str "Unknown" <> [] /\ trimEnd (str "Unknown") = str "Unknown") /\
  shows_description_twice unknownRecord.
Proof.
  split; [split; [discriminate | reflexivity]|].
  exact (formatWeather_description_twice (str "2024-06-01") (str "Unknown")
           (of_Z 75) (of_Z 60) (of_Z 0) (of_Z 4)
           ltac:(discriminate) eq_refl).
Defined.

(** C10 as stated fails on a description that ends in white space:
    [trim] removes the end of the second occurrence. *)
Lemma formatWeather_description_twice_counterexample :
  formatWeather trailingSpaceRecord =
  inr (str "Weather Forecast for 2024-06-01" ++ LF
       ++ str "Condition: Foggy " ++ LF
       ++ str "High: 75" ++ DEGREE ++ str "F" ++ LF
       ++ str "Low: 60" ++ DEGREE ++ str "F" ++ LF
       ++ str "Precipitation: 0 mm" ++ LF
       ++ str "Description: Foggy")
  /\ ~ shows_description_twice trailingSpaceRecord.
Proof.
  assert (E : formatWeather trailingSpaceRecord =
              inr (str "Weather Forecast for 2024-06-01" ++ LF
                   ++ str "Condition: Foggy " ++ LF
                   ++ str "High: 75" ++ DEGREE ++ str "F" ++ LF
                   ++ str "Low: 60" ++ DEGREE ++ str "F" ++ LF
                   ++ str "Precipitation: 0 mm" ++ LF
                   ++ str "Description: Foggy"))
    by (vm_compute; reflexivity).
  split; [exact E|].
  intros [description [pre [mid [post [Hd H]]]]].
  injection Hd as <-. rewrite E in H. injection H as H.
  assert (C : contains (str "Description: Foggy ")
                (pre ++ (str "Condition: " ++ str "Foggy ") ++ mid
                     ++ (str "Description: " ++ str "Foggy ") ++ post)).
  { exists (pre ++ (str "Condition: " ++ str "Foggy ") ++ mid), post.
    rewrite <- !app_assoc. reflexivity. }
  pose proof (eq_ind_r (contains (str "Description: Foggy ")) C H) as C'.
  apply includes_spec in C'. vm_compute in C'. discriminate.
Qed.

End FormatFacts.

(* ================================================================== *)
(** ** Facts about numbers *)
(* ================================================================== *)

Module JsNumberFacts.

(** [b < a] and [a <= b] exclude each other. *)
Lemma SFcompare_antisym (a b : number) :
  SFcompare b a = option_map CompOpp (SFcompare a b).
Proof.
  destruct a as [sa|sa| |sa ma ea], b as [sb|sb| |sb mb eb]; simpl;
    try reflexivity;
    try (destruct sa; reflexivity);
    try (destruct sb; reflexivity);
    try (destruct sa, sb; reflexivity).
  destruct sa, sb; simpl; try reflexivity;
    rewrite (Z.compare_antisym ea eb);
    destruct (ea ?= eb)%Z; simpl; try reflexivity;
    change (Pos.compare_cont Eq ?p ?q) with (Pos.compare p q);
    rewrite (Pos.compare_antisym ma mb);
    destruct (ma ?= mb)%positive; reflexivity.
Qed.

Lemma le_not_gt (a b : number) : lessOrEqual a b = true -> greaterThan a b = false.
Proof.
  unfold lessOrEqual, greaterThan, SFleb, SFltb. rewrite (SFcompare_antisym a b).
  destruct (SFcompare a b) as [[ | | ]|]; simpl; congruence.
Qed.

Lemma le_not_lt (a b : number) : lessOrEqual a b = true -> lessThan b a = false.
Proof. exact (le_not_gt a b). Qed.

Lemma digit_is_digit (d : Z) : 0 <= d < 10 -> is_digit (digit d) = true.
Proof.
  intros H. unfold is_digit, digit.
  apply andb_true_iff. split; apply N.leb_le; lia.
Qed.

Lemma digits_aux_head (fuel : nat) (n : Z) (acc : jsstring) :
  exists c r, digits_aux fuel n acc = c :: r /\ is_digit c = true.
Proof.
  revert n acc. induction fuel as [|fuel IH]; intros n acc; simpl.
  - eexists _, _. split; [reflexivity|].
    apply digit_is_digit, Z.mod_pos_bound. lia.
  - destruct (n / 10 =? 0).
    + eexists _, _. split; [reflexivity|].
      apply digit_is_digit, Z.mod_pos_bound. lia.
    + apply IH.
Qed.

Lemma numeral_head (n : Z) :
  exists c r, numeral n = c :: r /\ is_digit c = true.
Proof. apply digits_aux_head. Qed.

Lemma layout_head (c : code_unit) (r : jsstring) (n : Z) :
  is_digit c = true ->
  exists c' r', layout (c :: r) n = c' :: r' /\ is_digit c' = true.
Proof.
  intros Hc. unfold layout.
  destruct ((Z.of_nat (List.length (c :: r)) <=? n) && (n <=? 21)).
  { eexists _, _. split; [reflexivity | exact Hc]. }
  destruct ((0 <? n) && (n <=? 21)) eqn:E.
  { apply andb_true_iff in E as [E _]. apply Z.ltb_lt in E.
    destruct (Z.to_nat n) as [|k] eqn:Ek; [lia|].
    eexists _, _. split; [reflexivity | exact Hc]. }
  destruct ((-6 <? n) && (n <=? 0)).
  { eexists _, _. split; [reflexivity | reflexivity]. }
  destruct r; eexists _, _; (split; [reflexivity | exact Hc]).
Qed.

Lemma is_digit_starts_number (c : code_unit) :
  is_digit c = true -> starts_number c = true.
Proof. unfold starts_number. intros ->. reflexivity. Qed.

(** A printed number starts with a digit, [-], [N] or [I]. *)
Lemma toString_head (x : number) :
  exists c r, toString x = c :: r /\ starts_number c = true.
Proof.
  destruct x as [s|s| |s m e]; unfold toString.
  - eexists _, _. split; reflexivity.
  - destruct s; eexists _, _; split; reflexivity.
  - eexists _, _. split; reflexivity.
  - destruct (exact_fraction m e) as [num den].
    destruct (shortest 16 _ num den _ 1) as [digits n].
    destruct s.
    + eexists _, _. split; reflexivity.
    + destruct (numeral_head digits) as [c [r [-> Hc]]].
      destruct (layout_head c r n Hc) as [c' [r' [-> Hc']]].
      eexists _, _. split; [reflexivity|].
      apply is_digit_starts_number, Hc'.
Qed.

(** No member of [Object.prototype] has a name that starts so. *)
Lemma eqb_number_name (c : code_unit) (r name : jsstring) :
  starts_number c = true ->
  match name with
  | [] => true
  | h :: _ => negb (starts_number h)
  end = true ->
  JsString.eqb (c :: r) name = false.
Proof.
  intros Hc Hname. destruct name as [|h t]; [reflexivity|].
  simpl. destruct (N.eqb_spec c h) as [->|_]; [|reflexivity].
  rewrite Hc in Hname. discriminate.
Qed.

Lemma Object_prototype_number (x : number) :
  Object_prototype (toString x) = VUndefined.
Proof.
  destruct (toString_head x) as [c [r [-> Hc]]].
  unfold Object_prototype. cbn [existsb].
  rewrite !(eqb_number_name c r) by (exact Hc || reflexivity).
  reflexivity.
Qed.

(** A day offset that is an integer between 0 and 16: the window has one
    day more, both print as decimal numerals, and the offset indexes an
    array as the integer does. *)
Lemma integer_offset (k : Z) :
  0 <= k <= 16 ->
  lessThan (of_Z k) (of_Z 0) || greaterThan (of_Z k) (of_Z 16) = false /\
  add (of_Z k) (of_Z 1) = of_Z (k + 1) /\
  toString (of_Z (k + 1)) = numeral (k + 1) /\
  array_index (toString (of_Z k)) = Some (Z.to_nat k).
Proof.
  intros H.
  assert (C : k = 0 \/ k = 1 \/ k = 2 \/ k = 3 \/ k = 4 \/ k = 5 \/ k = 6
              \/ k = 7 \/ k = 8 \/ k = 9 \/ k = 10 \/ k = 11 \/ k = 12
              \/ k = 13 \/ k = 14 \/ k = 15 \/ k = 16) by lia.
  repeat (destruct C as [->|C]); try subst k; vm_compute; repeat split.
Qed.

End JsNumberFacts.
Import JsNumberFacts.

(* ================================================================== *)
(** ** Rounding: what parseFloat reads in a numeral within a range *)
(* ================================================================== *)

(** [parseFloat] rounds the fraction that a numeral writes to the nearest
    number.  The lemmas of this module follow the rounding of
    [binary_round_aux] step by step (the shifts of [shr_fexp], the
    choice of [round_nearest_even], the second shift after a carry) and
    show that the number read in a numeral whose value does not exceed
    an integer bound does not exceed the bound either.  Values are
    compared after scaling by [2 ^ 1074], the weight of the last bit of
    the smallest numbers, so that all exponents are natural numbers. *)
Module RoundingFacts.

Lemma digits2_pos_bounds (p : positive) :
  2 ^ (Zpos (digits2_pos p) - 1) <= Zpos p < 2 ^ Zpos (digits2_pos p).
Proof.
  induction p as [p IH|p IH|]; cbn [digits2_pos].
  - rewrite Pos2Z.inj_succ.
    replace (Z.succ (Zpos (digits2_pos p)) - 1) with (Z.succ (Zpos (digits2_pos p) - 1)) by lia.
    rewrite !Z.pow_succ_r by lia. lia.
  - rewrite Pos2Z.inj_succ.
    replace (Z.succ (Zpos (digits2_pos p)) - 1) with (Z.succ (Zpos (digits2_pos p) - 1)) by lia.
    rewrite !Z.pow_succ_r by lia. lia.
  - simpl. lia.
Qed.

(** One shift to the right keeps the invariant. *)
Lemma shr_1_below (N D : Z) (rec : shr_record) (E : Z) :
  0 < D -> 0 <= E -> below N D rec E -> below N D (shr_1 rec) (E + 1).
Proof.
  intros HD HE [Hm [Hle Hlt]].
  assert (P : 0 < 2 ^ E) by (apply Z.pow_pos_nonneg; lia).
  assert (S : 2 ^ (E + 1) = 2 * 2 ^ E) by (rewrite Z.pow_add_r by lia; lia).
  destruct rec as [m r s]. cbn [shr_m shr_r shr_s] in *.
  unfold below. rewrite S.
  set (Q := 2 ^ E * D) in *.
  assert (HQ : 0 < Q) by (apply Z.mul_pos_pos; assumption).
  assert (R : forall a, a * (2 * 2 ^ E) * D = 2 * (a * Q)) by (intros; unfold Q; ring).
  assert (R' : forall a, a * 2 ^ E * D = a * Q) by (intros; unfold Q; ring).
  rewrite R' in Hle, Hlt.
  destruct m as [|[p|p|]|p]; cbn [shr_1 shr_m shr_r shr_s]; rewrite ?R.
  - split; [lia|]. split; [lia|]. intros H. rewrite orb_false_l in H. apply Hlt in H. lia.
  - rewrite Pos2Z.inj_xI in Hle. split; [lia|]. split; [lia|]. intros _. lia.
  - rewrite Pos2Z.inj_xO in Hle, Hlt. split; [lia|]. split; [lia|].
    rewrite orb_false_l. intros H. apply Hlt in H. lia.
  - split; [lia|]. split; [lia|]. intros _. lia.
  - lia.
Qed.

Lemma iter_shr_below (N D : Z) (p : positive) :
  0 < D ->
  forall rec E, 0 <= E -> below N D rec E ->
  below N D (iter_pos shr_1 p rec) (E + Zpos p).
Proof.
  intros HD. induction p as [p IH|p IH|]; intros rec E HE H; cbn [iter_pos].
  - replace (E + Zpos p~1) with (E + 1 + Zpos p + Zpos p) by lia.
    apply IH; [lia|]. apply IH; [lia|]. apply shr_1_below; assumption.
  - replace (E + Zpos p~0) with (E + Zpos p + Zpos p) by lia.
    apply IH; [lia|]. apply IH; assumption.
  - apply shr_1_below; assumption.
Qed.


Lemma fexp_unfold (x : Z) : fexp prec emax x = Z.max (x - 53) (-1074).
Proof. reflexivity. Qed.

Lemma pow2_lt_exponent (a b : Z) : 0 <= b -> 2 ^ a < 2 ^ b -> a < b.
Proof. intros Hb H. apply (Z.pow_lt_mono_r_iff 2); [lia | exact Hb | exact H]. Qed.

(** The exponent that [shr_fexp] chooses for a mantissa whose value does
    not exceed [mB * 2 ^ eB] is at most [eB]. *)
Lemma fexp_digits_le (mx ex : Z) (mB : positive) (eB : Z) :
  0 <= mx -> -1074 <= ex <= eB -> Zpos mB < 2 ^ 53 ->
  mx * 2 ^ (ex + 1074) <= Zpos mB * 2 ^ (eB + 1074) ->
  fexp prec emax (Zdigits2 mx + ex) <= eB.
Proof.
  intros Hm He HB H. rewrite fexp_unfold.
  destruct mx as [|p|p]; cbn [Zdigits2]; [lia| |lia].
  pose proof (digits2_pos_bounds p) as [Hd _].
  set (d := Zpos (digits2_pos p)) in *.
  assert (d_pos : 0 < d) by (unfold d; lia).
  assert (P1 : 0 < 2 ^ (ex + 1074)) by (apply Z.pow_pos_nonneg; lia).
  assert (P2 : 0 < 2 ^ (eB + 1074)) by (apply Z.pow_pos_nonneg; lia).
  assert (L : 2 ^ (d - 1 + (ex + 1074)) < 2 ^ (53 + (eB + 1074))).
  { rewrite (Z.pow_add_r 2 (d - 1) (ex + 1074)),
            (Z.pow_add_r 2 53 (eB + 1074)) by lia.
    apply Z.le_lt_trans with (Zpos p * 2 ^ (ex + 1074)).
    - apply Z.mul_le_mono_nonneg_r; lia.
    - apply Z.le_lt_trans with (Zpos mB * 2 ^ (eB + 1074)); [exact H|].
      apply (proj1 (Z.mul_lt_mono_pos_r _ _ _ P2)). exact HB. }
  apply pow2_lt_exponent in L; lia.
Qed.

Lemma below_le (N D : Z) (rec : shr_record) (E : Z) (B : Z) :
  0 < D -> below N D rec E -> N <= B * D -> shr_m rec * 2 ^ E <= B.
Proof.
  intros HD [_ [H _]] HB.
  apply (Z.mul_le_mono_pos_r _ _ D HD). lia.
Qed.

Lemma below_lt (N D : Z) (rec : shr_record) (E : Z) (B : Z) :
  0 < D -> below N D rec E -> N <= B * D -> shr_r rec = true ->
  shr_m rec * 2 ^ E < B.
Proof.
  intros HD [_ [_ H]] HB Hr.
  apply (Z.mul_lt_mono_pos_r D _ _ HD).
  rewrite Hr in H. specialize (H eq_refl). lia.
Qed.

(** [shr_fexp] keeps the record below the value and its exponent at
    most [eB]. *)
Lemma shr_fexp_below (N D mx ex : Z) (lx : location) (mB : positive) (eB : Z) :
  0 < D -> 0 <= mx -> -1074 <= ex <= eB -> Zpos mB < 2 ^ 53 ->
  below N D (shr_record_of_loc mx lx) (ex + 1074) ->
  N <= Zpos mB * 2 ^ (eB + 1074) * D ->
  (ex <= snd (shr_fexp prec emax mx ex lx) <= eB) /\
  below N D (fst (shr_fexp prec emax mx ex lx))
        (snd (shr_fexp prec emax mx ex lx) + 1074).
Proof.
  intros HD Hm He HB Hbelow HN.
  assert (Hmx : shr_m (shr_record_of_loc mx lx) = mx)
    by (destruct lx as [|[ | | ]]; reflexivity).
  pose proof (below_le _ _ _ _ _ HD Hbelow HN) as Hle. rewrite Hmx in Hle.
  pose proof (fexp_digits_le mx ex mB eB Hm He HB Hle) as Hf.
  unfold shr_fexp, shr.
  destruct (fexp prec emax (Zdigits2 mx + ex) - ex) as [|p|p] eqn:En;
    cbn [fst snd].
  - split; [lia | exact Hbelow].
  - split; [lia|].
    replace (ex + Zpos p + 1074) with (ex + 1074 + Zpos p) by lia.
    apply iter_shr_below; [exact HD | lia | exact Hbelow].
  - split; [lia | exact Hbelow].
Qed.

(** The mantissa is rounded up only when the bit shifted out last was
    set; the value is then strictly between two multiples of [2 ^ E], and
    the upper one does not exceed a bound that is such a multiple. *)
Lemma round_nearest_even_le (rec : shr_record) (E : Z) (B : Z) :
  0 <= E -> 0 <= shr_m rec ->
  shr_m rec * 2 ^ E <= B * 2 ^ E ->
  (shr_r rec = true -> shr_m rec * 2 ^ E < B * 2 ^ E) ->
  let m := round_nearest_even (shr_m rec) (loc_of_shr_record rec) in
  0 <= m /\ m * 2 ^ E <= B * 2 ^ E.
Proof.
  intros HE Hm Hle Hlt.
  assert (P : 0 < 2 ^ E) by (apply Z.pow_pos_nonneg; lia).
  assert (U : shr_r rec = true -> (shr_m rec + 1) * 2 ^ E <= B * 2 ^ E).
  { intros Hr. apply Z.mul_le_mono_nonneg_r; [lia|].
    specialize (Hlt Hr). apply Z.mul_lt_mono_pos_r in Hlt; lia. }
  destruct rec as [m [|] [|]]; cbn [shr_m shr_r loc_of_shr_record round_nearest_even] in *.
  - split; [lia | apply U; reflexivity].
  - destruct (Z.even m); (split; [lia|]); [exact Hle | apply U; reflexivity].
  - split; [lia | exact Hle].
  - split; [lia | exact Hle].
Qed.

(** Rounding a value that does not exceed [mB * 2 ^ eB] to nearest
    gives zero or a number whose exponent and mantissa do not exceed
    [eB] and [mB]. *)
Lemma binary_round_aux_le (N D mx ex : Z) (lx : location) (mB : positive) (eB : Z) :
  0 < D -> 0 <= mx -> -1074 <= ex <= eB -> eB <= 971 -> Zpos mB < 2 ^ 53 ->
  below N D (shr_record_of_loc mx lx) (ex + 1074) ->
  N <= Zpos mB * 2 ^ (eB + 1074) * D ->
  binary_round_aux prec emax false mx ex lx = S754_zero false \/
  exists m e,
    binary_round_aux prec emax false mx ex lx = S754_finite false m e /\
    (e < eB \/ (e = eB /\ (m <= mB)%positive)).
Proof.
  intros HD Hm He Hmax HB Hbelow HN.
  destruct (shr_fexp_below N D mx ex lx mB eB HD Hm He HB Hbelow HN)
    as [He1 Hb1].
  unfold binary_round_aux.
  destruct (shr_fexp prec emax mx ex lx) as [rec1 e1]. cbn [fst snd] in *.
  set (m2 := round_nearest_even (shr_m rec1) (loc_of_shr_record rec1)).
  (* the rounded mantissa, at exponent [e1], does not exceed the bound *)
  assert (P1 : 0 < 2 ^ (e1 + 1074)) by (apply Z.pow_pos_nonneg; lia).
  assert (S : 2 ^ (eB + 1074) = 2 ^ (eB - e1) * 2 ^ (e1 + 1074)).
  { rewrite <- Z.pow_add_r by lia. f_equal. lia. }
  assert (HN' : N <= Zpos mB * 2 ^ (eB - e1) * 2 ^ (e1 + 1074) * D).
  { rewrite <- (Z.mul_assoc (Zpos mB)), <- S. exact HN. }
  assert (R : 0 <= m2 /\
              m2 * 2 ^ (e1 + 1074) <= Zpos mB * 2 ^ (eB - e1) * 2 ^ (e1 + 1074)).
  { apply round_nearest_even_le; [lia | apply Hb1 | |].
    - apply (below_le N D); [exact HD | exact Hb1 | exact HN'].
    - intros Hr. apply (below_lt N D); [exact HD | exact Hb1 | exact HN' | exact Hr]. }
  destruct R as [Hm2 Hle2].
  rewrite <- (Z.mul_assoc (Zpos mB)), <- S in Hle2.
  (* the second shift *)
  assert (Hb2 : below (m2 * 2 ^ (e1 + 1074)) 1
                      (shr_record_of_loc m2 loc_Exact) (e1 + 1074)).
  { unfold below. cbn [shr_record_of_loc shr_m shr_r shr_s orb].
    split; [exact Hm2|]. split; [lia | discriminate]. }
  destruct (shr_fexp_below (m2 * 2 ^ (e1 + 1074)) 1 m2 e1 loc_Exact mB eB
              ltac:(lia) Hm2 ltac:(lia) HB Hb2 ltac:(lia)) as [He2 Hb3].
  destruct (shr_fexp prec emax m2 e1 loc_Exact) as [rec2 e2]. cbn [fst snd] in *.
  assert (Hfinal : shr_m rec2 * 2 ^ (e2 + 1074) <= Zpos mB * 2 ^ (eB + 1074)).
  { apply (below_le (m2 * 2 ^ (e1 + 1074)) 1); [lia | exact Hb3 | lia]. }
  destruct Hb3 as [Hm3 _].
  destruct (shr_m rec2) as [|m|m]; [left; reflexivity | | lia].
  right. exists m, e2.
  assert (F : (e2 <=? emax - prec) = true) by (apply Z.leb_le; unfold emax, prec; lia).
  rewrite F. split; [reflexivity|].
  destruct (Z.eq_dec e2 eB) as [->|Hne]; [right | left; lia].
  split; [reflexivity|].
  assert (P2 : 0 < 2 ^ (eB + 1074)) by (apply Z.pow_pos_nonneg; lia).
  apply Z.mul_le_mono_pos_r in Hfinal; [|exact P2].
  exact Hfinal.
Qed.

Lemma new_location_exact (n r : Z) :
  new_location n r = loc_Exact \/ r <> 0.
Proof.
  unfold new_location, new_location_even, new_location_odd.
  destruct (Z.even n); destruct (Z.eqb_spec r 0); auto.
Qed.

(** The quotient that [SFdiv_core_binary] hands to the rounding. *)
Lemma SFdiv_core_below (p d : positive) :
  let '(q, e, l) := SFdiv_core_binary prec emax (Zpos p) 0 (Zpos d) 0 in
  0 <= q /\
  (-1074 <= e <= fexp prec emax (Zpos (digits2_pos p) - Zpos (digits2_pos d))) /\
  below (Zpos p * 2 ^ 1074) (Zpos d) (shr_record_of_loc q l) (e + 1074).
Proof.
  unfold SFdiv_core_binary. cbn [Zdigits2].
  replace (Zpos (digits2_pos p) + 0 - (Zpos (digits2_pos d) + 0))
    with (Zpos (digits2_pos p) - Zpos (digits2_pos d)) by lia.
  set (f := fexp prec emax (Zpos (digits2_pos p) - Zpos (digits2_pos d))).
  assert (Hf : -1074 <= f) by (unfold f; rewrite fexp_unfold; lia).
  change (0 - 0) with 0.
  set (e := Z.min f 0).
  assert (He : -1074 <= e <= 0 /\ e <= f) by (unfold e; lia).
  set (m' := match 0 - e with
             | 0 => Zpos p
             | Zpos _ => Z.shiftl (Zpos p) (0 - e)
             | Zneg _ => 0
             end).
  assert (Hm' : m' = Zpos p * 2 ^ (- e)).
  { unfold m'. destruct (0 - e) as [|s|s] eqn:Es.
    - replace (- e) with 0 by lia. lia.
    - rewrite Z.shiftl_mul_pow2 by lia. f_equal. f_equal. lia.
    - lia. }
  pose proof (Z_div_mod m' (Zpos d) eq_refl) as Hdiv.
  destruct (Z.div_eucl m' (Zpos d)) as [q r]. destruct Hdiv as [Hq Hr].
  assert (P : 0 < 2 ^ (- e)) by (apply Z.pow_pos_nonneg; lia).
  assert (Q : 0 < 2 ^ (e + 1074)) by (apply Z.pow_pos_nonneg; lia).
  assert (S : 2 ^ 1074 = 2 ^ (- e) * 2 ^ (e + 1074)).
  { rewrite <- Z.pow_add_r by lia. f_equal. lia. }
  assert (Hq0 : 0 <= q) by nia.
  split; [exact Hq0|]. split; [lia|].
  assert (Hmq : shr_m (shr_record_of_loc q (new_location (Zpos d) r)) = q)
    by (destruct (new_location (Zpos d) r) as [|[ | | ]]; reflexivity).
  unfold below. rewrite Hmq. split; [exact Hq0|].
  rewrite S.
  assert (E : Zpos p * (2 ^ (- e) * 2 ^ (e + 1074))
              = (Zpos d * q + r) * 2 ^ (e + 1074)) by (rewrite <- Hq, Hm'; ring).
  rewrite E. split; [nia|].
  intros Hbits.
  destruct (new_location_exact (Zpos d) r) as [Hx|Hx].
  - rewrite Hx in Hbits. discriminate.
  - nia.
Qed.

(** Comparison with a bound given by its mantissa and exponent. *)
Lemma within_magnitude (B : Z) (mB : positive) (eB : Z) (x : number) :
  of_Z B = S754_finite false mB eB ->
  of_Z (- B) = S754_finite true mB eB ->
  (x = S754_zero false \/
   exists m e, x = S754_finite false m e /\
               (e < eB \/ (e = eB /\ (m <= mB)%positive))) ->
  within B x = true /\ within B (SFopp x) = true.
Proof.
  intros Hpos Hneg Hx. unfold within, lessOrEqual, SFleb. rewrite Hpos, Hneg.
  destruct Hx as [->|[m [e [-> Hle]]]]; [split; reflexivity|].
  cbn [isFinite SFopp negb SFcompare andb].
  change (Pos.compare_cont Eq ?a ?b) with (Pos.compare a b).
  destruct Hle as [Hlt|[-> Hm]].
  - apply Z.compare_lt_iff in Hlt. rewrite Hlt.
    rewrite (Z.compare_antisym e eB), Hlt. split; reflexivity.
  - rewrite Z.compare_refl.
    rewrite (Pos.compare_antisym m mB).
    unfold Pos.le in Hm. destruct (m ?= mB)%positive; try contradiction;
      split; reflexivity || congruence.
Qed.

(** A fraction [p / 10 ^ k] that does not exceed the integer [B] is read
    as a number that does not exceed [B]. *)
Lemma of_decimal_fraction_le (p : positive) (k B : Z) (mB : positive) (eB : Z) :
  0 < k -> -1074 <= eB <= 971 -> Zpos mB < 2 ^ 53 ->
  Zpos mB * 2 ^ (eB + 1074) = B * 2 ^ 1074 ->
  Zpos p <= B * 10 ^ k ->
  of_decimal false (Zpos p) (- k) = S754_zero false \/
  exists m e,
    of_decimal false (Zpos p) (- k) = S754_finite false m e /\
    (e < eB \/ (e = eB /\ (m <= mB)%positive)).
Proof.
  intros Hk HeB HmB HB Hp. unfold of_decimal.
  assert (F : (0 <=? - k) = false) by (apply Z.leb_gt; lia).
  rewrite F, Z.opp_involutive.
  assert (T : 0 < 10 ^ k) by (apply Z.pow_pos_nonneg; lia).
  destruct (10 ^ k) as [|d|d] eqn:Ed; try lia.
  pose proof (SFdiv_core_below p d) as H.
  destruct (SFdiv_core_binary prec emax (Zpos p) 0 (Zpos d) 0) as [[q e] l].
  destruct H as [Hq [He Hbelow]].
  assert (W : 0 < 2 ^ 1074) by (apply Z.pow_pos_nonneg; lia).
  assert (P2 : 0 < 2 ^ (eB + 1074)) by (apply Z.pow_pos_nonneg; lia).
  assert (Hf : fexp prec emax (Zpos (digits2_pos p) - Zpos (digits2_pos d)) <= eB).
  { rewrite fexp_unfold.
    pose proof (digits2_pos_bounds p) as [Hd1 _].
    pose proof (digits2_pos_bounds d) as [_ Hd2].
    set (d1 := Zpos (digits2_pos p)) in *. set (d2 := Zpos (digits2_pos d)) in *.
    assert (d1_pos : 0 < d1) by (unfold d1; lia).
    assert (d2_pos : 0 < d2) by (unfold d2; lia).
    assert (L : 2 ^ (d1 - 1 + 1074) < 2 ^ (53 + (eB + 1074) + d2)).
    { rewrite (Z.pow_add_r 2 (d1 - 1) 1074),
              (Z.pow_add_r 2 (53 + (eB + 1074)) d2),
              (Z.pow_add_r 2 53 (eB + 1074)) by lia.
      assert (Q2 : 0 < 2 ^ d2) by (apply Z.pow_pos_nonneg; lia).
      apply Z.le_lt_trans with (Zpos mB * 2 ^ (eB + 1074) * Zpos d).
      - rewrite HB. nia.
      - apply Z.le_lt_trans with (Zpos mB * 2 ^ (eB + 1074) * 2 ^ d2); [nia|].
        apply (proj1 (Z.mul_lt_mono_pos_r _ _ _ Q2)).
        apply (proj1 (Z.mul_lt_mono_pos_r _ _ _ P2)). exact HmB. }
    apply pow2_lt_exponent in L; lia. }
  apply (binary_round_aux_le (Zpos p * 2 ^ 1074) (Zpos d) q e l mB eB);
    try assumption; lia.
Qed.

(** The integers from [- B] to [B], checked one by one. *)
Lemma within_integers (B : Z) :
  forallb (fun n => within B (of_decimal false (Z.of_nat n) 0)
                    && within B (of_decimal true (Z.of_nat n) 0))
          (seq 0 (S (Z.to_nat B))) = true ->
  forall neg m, 0 <= m <= B -> within B (of_decimal neg m 0) = true.
Proof.
  intros H neg m Hm. rewrite forallb_forall in H.
  specialize (H (Z.to_nat m)). rewrite Z2Nat.id in H by lia.
  assert (I : In (Z.to_nat m) (seq 0 (S (Z.to_nat B)))) by (apply in_seq; lia).
  apply H, andb_true_iff in I. destruct neg; tauto.
Qed.

(** What [parseFloat] reads in the numeral of a number between [- B]
    and [B] is finite and between [- B] and [B]. *)
Lemma of_decimal_within (B : Z) (mB : positive) (eB : Z) (neg : bool) (m : Z) (k : nat) :
  of_Z B = S754_finite false mB eB ->
  of_Z (- B) = S754_finite true mB eB ->
  -1074 <= eB <= 971 -> Zpos mB < 2 ^ 53 ->
  Zpos mB * 2 ^ (eB + 1074) = B * 2 ^ 1074 ->
  (forall neg' m', 0 <= m' <= B -> within B (of_decimal neg' m' 0) = true) ->
  0 <= m <= B * 10 ^ Z.of_nat k ->
  within B (of_decimal neg m (- Z.of_nat k)) = true.
Proof.
  intros Hpos Hneg HeB HmB HB Hint Hm.
  destruct k as [|k].
  { apply Hint. change (10 ^ Z.of_nat 0) with 1 in Hm. lia. }
  assert (HB0 : 0 < B).
  { assert (W : 0 < 2 ^ 1074) by (apply Z.pow_pos_nonneg; lia).
    assert (P2 : 0 < 2 ^ (eB + 1074)) by (apply Z.pow_pos_nonneg; lia).
    nia. }
  destruct m as [|p|p]; [| |lia].
  - change (of_decimal neg 0 (- Z.of_nat (S k))) with (of_decimal neg 0 0).
    apply Hint. lia.
  - pose proof (of_decimal_fraction_le p (Z.of_nat (S k)) B mB eB
                  ltac:(lia) HeB HmB HB ltac:(lia)) as H.
    destruct (within_magnitude B mB eB _ Hpos Hneg H) as [W1 W2].
    destruct neg; [|exact W1].
    unfold of_decimal in *. exact W2.
Qed.

Lemma within_90 (neg : bool) (m : Z) (k : nat) :
  0 <= m <= 90 * 10 ^ Z.of_nat k ->
  within 90 (of_decimal neg m (- Z.of_nat k)) = true.
Proof.
  apply (of_decimal_within 90 (Z.to_pos (90 * 2 ^ 46)) (-46)).
  - vm_compute. reflexivity.
  - vm_compute. reflexivity.
  - lia.
  - vm_compute. reflexivity.
  - vm_compute. reflexivity.
  - apply within_integers. vm_compute. reflexivity.
Qed.

Lemma within_180 (neg : bool) (m : Z) (k : nat) :
  0 <= m <= 180 * 10 ^ Z.of_nat k ->
  within 180 (of_decimal neg m (- Z.of_nat k)) = true.
Proof.
  apply (of_decimal_within 180 (Z.to_pos (180 * 2 ^ 45)) (-45)).
  - vm_compute. reflexivity.
  - vm_compute. reflexivity.
  - lia.
  - vm_compute. reflexivity.
  - vm_compute. reflexivity.
  - apply within_integers. vm_compute. reflexivity.
Qed.

(** *** Numerals *)

Lemma take_digits_spec (s : jsstring) :
  s = fst (take_digits s) ++ snd (take_digits s) /\
  forallb is_digit (fst (take_digits s)) = true.
Proof.
  induction s as [|c r [IH1 IH2]]; [split; reflexivity|].
  cbn [take_digits]. destruct (is_digit c) eqn:E; [|split; reflexivity].
  destruct (take_digits r) as [ds rest]. cbn [fst snd] in *.
  split; [rewrite IH1 at 1; reflexivity|].
  cbn [forallb]. rewrite E, IH2. reflexivity.
Qed.

Lemma fold_digits_nonneg (ds : jsstring) (acc : Z) :
  forallb is_digit ds = true -> 0 <= acc ->
  0 <= fold_left (fun a c => a * 10 + (Z.of_N c - 48)) ds acc.
Proof.
  revert acc. induction ds as [|c r IH]; intros acc H Hacc; [exact Hacc|].
  cbn [forallb] in H. apply andb_true_iff in H as [Hc Hr].
  cbn [fold_left]. apply IH; [exact Hr|].
  unfold is_digit in Hc. apply andb_true_iff in Hc as [Hc _].
  apply N.leb_le in Hc. lia.
Qed.

Lemma digit_not_white (c : code_unit) : is_digit c = true -> is_ws c = false.
Proof.
  unfold is_digit. intros H. apply andb_true_iff in H as [H1 H2].
  apply N.leb_le in H1, H2.
  assert (C : (c = 48 \/ c = 49 \/ c = 50 \/ c = 51 \/ c = 52 \/ c = 53
              \/ c = 54 \/ c = 55 \/ c = 56 \/ c = 57)%N) by lia.
  repeat (destruct C as [->|C]; [reflexivity|]). subst c. reflexivity.
Qed.

Lemma digit_not_I (c : code_unit) (r : jsstring) :
  is_digit c = true -> startsWith (str "Infinity") (c :: r) = false.
Proof.
  unfold is_digit. intros H. apply andb_true_iff in H as [H1 H2].
  apply N.leb_le in H1, H2.
  change (str "Infinity") with (73%N :: str "nfinity"). cbn [startsWith].
  destruct (N.eqb_spec 73 c) as [E|_]; [lia | reflexivity].
Qed.

(** [parseFloat] on a decimal numeral. *)
Lemma parseFloat_decimalNumeral (s : jsstring) (neg : bool) (m : Z) (k : nat) :
  decimalNumeral s = Some (neg, m, k) ->
  parseFloat s = of_decimal neg m (- Z.of_nat k) /\ 0 <= m.
Proof.
  unfold decimalNumeral, parseFloat.
  destruct (take_sign s) as [sg s1] eqn:Es.
  pose proof (take_digits_spec s1) as [Hs1 Hip].
  destruct (take_digits s1) as [ip s2] eqn:Ed. cbn [fst snd] in *.
  destruct ip as [|c ip]; [discriminate|].
  assert (Hc : is_digit c = true).
  { cbn [forallb] in Hip. apply andb_true_iff in Hip. tauto. }
  assert (Hs1' : exists r1, s1 = c :: r1) by (rewrite Hs1; eexists; reflexivity).
  destruct Hs1' as [r1 Hr1].
  assert (Ht : trimStart s = s).
  { unfold take_sign in Es.
    destruct s as [|x r]; [reflexivity|].
    assert (Hx : is_ws x = false).
    { destruct (N.eqb_spec x 45) as [->|N45]; [reflexivity|].
      destruct (N.eqb_spec x 43) as [->|N43]; [reflexivity|].
      assert (E : (sg, s1) = (false, x :: r)).
      { rewrite <- Es. clear - N45 N43.
        destruct x as [|p]; [reflexivity|].
        do 6 (destruct p as [p|p|]; try reflexivity); congruence. }
      injection E as _ E. rewrite Hr1 in E. injection E as -> _.
      apply digit_not_white, Hc. }
    cbn [trimStart]. rewrite Hx. reflexivity. }
  rewrite Ht, Es.
  rewrite Hr1, digit_not_I by exact Hc. rewrite <- Hr1, Ed.
  destruct s2 as [|d r2].
  - intros H. injection H as <- <- <-.
    rewrite app_nil_r. cbn [app List.length Z.of_nat Z.opp Z.sub].
    split; [reflexivity|]. apply fold_digits_nonneg; [exact Hip | lia].
  - destruct (N.eqb_spec d 46) as [->|N46].
    + pose proof (take_digits_spec r2) as [_ Hfp].
      destruct (take_digits r2) as [fp s3]. cbn [fst snd] in *.
      destruct fp as [|f fp]; [discriminate|].
      destruct s3; [|discriminate].
      intros H. injection H as <- <- <-.
      split.
      * change ((c :: ip) ++ f :: fp) with (c :: ip ++ f :: fp).
        cbv iota. f_equal.
      * assert (A : forallb is_digit ((c :: ip) ++ f :: fp) = true)
          by (rewrite forallb_app, Hip, Hfp; reflexivity).
        apply fold_digits_nonneg; [exact A | lia].
    + intros H. exfalso. revert H. clear - N46.
      destruct d as [|p]; [discriminate|].
      do 6 (destruct p as [p|p|]; try discriminate). congruence.
Qed.

End RoundingFacts.
Import RoundingFacts.

(* ================================================================== *)
(** ** getWeather *)
(* ================================================================== *)

Module GetWeatherFacts.

Lemma get_error (v : value) (key : jsstring) (e : exn) :
  get v key = inl e -> e = CannotRead v key.
Proof. destruct v; simpl; congruence. Qed.

(** Reading a day's value fails only on [undefined] or [null]. *)
Lemma daily_error (data : value) (field : jsstring) (nextday : number) (e : exn) :
  daily data field nextday = inl e -> exists base key, e = CannotRead base key.
Proof.
  unfold daily.
  destruct (get data (str "daily")) as [e1|d] eqn:E1.
  { intros H. injection H as <-. eauto using get_error. }
  destruct (get d field) as [e2|series] eqn:E2.
  { intros H. injection H as <-. eauto using get_error. }
  intros H. eauto using get_error.
Qed.

(** A conversion fails only with the [TypeError] of the conversion. *)
Lemma ToString_error (v : value) (e : exn) :
  ToString v = inl e -> e = CannotConvert.
Proof. unfold ToString. destruct (text v); congruence. Qed.

(** The bounds check throws, and nothing is requested, as soon as
    [nextday < 0] or [nextday > 16] holds. *)
Lemma getWeather_below_or_above (net : network) (lat lon nextday : number) :
  lessThan nextday (of_Z 0) || greaterThan nextday (of_Z 16) = true ->
  getWeather lat lon nextday net = (inl rangeError, []).
Proof. intros H. unfold getWeather. rewrite H. reflexivity. Qed.

(** The bounds check passes on every number from 0 to 16. *)
Lemma getWeather_check_passes (nextday : number) :
  lessOrEqual (of_Z 0) nextday = true -> lessOrEqual nextday (of_Z 16) = true ->
  lessThan nextday (of_Z 0) || greaterThan nextday (of_Z 16) = false.
Proof.
  intros H0 H16. rewrite (le_not_lt _ _ H0), (le_not_gt _ _ H16). reflexivity.
Qed.

(** Once the check has passed there is one request, for a window of
    [nextday + 1] days, whatever the network answers. *)
Lemma getWeather_requests (net : network) (lat lon nextday : number) :
  lessThan nextday (of_Z 0) || greaterThan nextday (of_Z 16) = false ->
  requests (getWeather lat lon nextday) net
  = [forecastUrl lat lon (add nextday (of_Z 1))].
Proof.
  intros H. unfold requests, getWeather. rewrite H.
  unfold bind, fetch.
  destruct (net _) as [[[|] [data|]]|]; try reflexivity.
  unfold json, ret, lift. cbn [body negb ok].
  repeat match goal with
         | |- context [daily ?d ?f ?n] => destruct (daily d f n)
         end; try reflexivity.
  match goal with
  | |- context [ToString ?v] => destruct (ToString v)
  end; reflexivity.
Qed.

(** What [getWeather] returns when the response holds the five readings
    of the day and the code can be converted to a property key. *)
Lemma getWeather_returns (net : network) (lat lon nextday : number)
      (data code day high low rain : value) (key : jsstring) :
  lessThan nextday (of_Z 0) || greaterThan nextday (of_Z 16) = false ->
  net (forecastUrl lat lon (add nextday (of_Z 1)))
  = Some {| ok := true; body := Some data |} ->
  daily data (str "weather_code") nextday = inr code ->
  daily data (str "time") nextday = inr day ->
  daily data (str "temperature_2m_max") nextday = inr high ->
  daily data (str "temperature_2m_min") nextday = inr low ->
  daily data (str "precipitation_sum") nextday = inr rain ->
  ToString code = inr key ->
  outcome (getWeather lat lon nextday) net
  = inr {| date := day;
           maxTemp := high;
           minTemp := low;
           precipitation := rain;
           weatherCode := code;
           weatherDescription :=
             logical_or (lookup weatherCodes key) (VStr (str "Unknown")) |}.
Proof.
  intros H Hnet Hc Hd Hh Hl Hr Hk. unfold outcome, getWeather. rewrite H.
  unfold bind, fetch. rewrite Hnet.
  unfold json, ret, lift. cbn [body negb ok].
  rewrite Hc, Hd, Hh, Hl, Hr, Hk. reflexivity.
Qed.

(** When the five readings are there and the code cannot be converted,
    [getWeather] throws the [TypeError] of the conversion. *)
Lemma getWeather_throws (net : network) (lat lon nextday : number)
      (data code day high low rain : value) (e : exn) :
  lessThan nextday (of_Z 0) || greaterThan nextday (of_Z 16) = false ->
  net (forecastUrl lat lon (add nextday (of_Z 1)))
  = Some {| ok := true; body := Some data |} ->
  daily data (str "weather_code") nextday = inr code ->
  daily data (str "time") nextday = inr day ->
  daily data (str "temperature_2m_max") nextday = inr high ->
  daily data (str "temperature_2m_min") nextday = inr low ->
  daily data (str "precipitation_sum") nextday = inr rain ->
  ToString code = inl e ->
  outcome (getWeather lat lon nextday) net = inl e.
Proof.
  intros H Hnet Hc Hd Hh Hl Hr Hk. unfold outcome, getWeather. rewrite H.
  unfold bind, fetch. rewrite Hnet.
  unfold json, ret, lift. cbn [body negb ok].
  rewrite Hc, Hd, Hh, Hl, Hr, Hk. reflexivity.
Qed.

(** C1, at the input where the code leaves it.  [NaN] is not between 0
    and 16 ([0 <= NaN] and [NaN <= 16] are false), but [NaN < 0] and
    [NaN > 16] are false too: [getWeather] does not throw the range
    error, it requests a forecast whose [forecast_days] is [NaN]. *)
Theorem getWeather_NaN_is_requested (net : network) (lat lon : number) :
  lessOrEqual (of_Z 0) NaN = false /\ lessOrEqual NaN (of_Z 16) = false /\
  requests (getWeather lat lon NaN) net = [forecastUrl lat lon NaN] /\
  toString NaN = str "NaN" /\
  outcome (getWeather lat lon NaN) net <> inl rangeError.
Proof.
  repeat split.
  - apply (getWeather_requests net lat lon NaN). reflexivity.
  - unfold outcome, getWeather.
    change (lessThan NaN (of_Z 0) || greaterThan NaN (of_Z 16)) with false. cbv iota zeta.
    unfold bind, fetch.
    destruct (net _) as [[[|] [data|]]|]; cbn [body negb ok json fst];
      unfold ret, lift, throw; cbn [fst]; try discriminate.
    repeat match goal with
             | |- context [daily ?d ?f ?n] =>
                 let E := fresh "E" in destruct (daily d f n) eqn:E
             end; cbn [fst]; try discriminate;
        try match goal with
        | E : daily _ _ _ = inl ?e |- _ =>
            destruct (daily_error _ _ _ _ E) as [base [key ->]]; discriminate
        end.
    match goal with
    | |- context [ToString ?v] =>
        let E := fresh "E" in destruct (ToString v) eqn:E
    end; cbn [fst]; [|discriminate].
    match goal with
    | E : ToString _ = inl _ |- _ => rewrite (ToString_error _ _ E)
    end. discriminate.
Qed.

(** A series of the response, when it is there and is an array. *)
Lemma dailySeries_daily (data : value) (field : jsstring) (l : list value)
      (nextday : number) :
  dailySeries data field = Some l ->
  daily data field nextday = inr (lookup (VArr l) (toString nextday)).
Proof.
  unfold dailySeries, daily.
  destruct (get data (str "daily")) as [e|d]; [discriminate|].
  destruct (get d field) as [e|[ | | | | |elements| | ]]; try discriminate.
  intros H. injection H as ->. reflexivity.
Qed.

Lemma lookup_integer_offset (l : list value) (k : Z) :
  0 <= k <= 16 ->
  lookup (VArr l) (toString (of_Z k)) = nth (Z.to_nat k) l VUndefined.
Proof.
  intros H. destruct (integer_offset k H) as [_ [_ [_ Hi]]].
  unfold lookup. rewrite Hi. reflexivity.
Qed.

(** C2. For every day offset [k] from 0 to 16, [getWeather] makes one
    request: for the daily maximal and minimal temperature, the
    precipitation sum and the weather code, in Fahrenheit, in the time
    zone America/New_York, over a window of [k + 1] days.  When the
    response carries the five daily series, the entry of index [k] of
    each of them is selected (0 is the first, today): the record
    returned holds these five entries, with the description looked up
    under the key that the day's code converts to; a day's code that
    cannot be converted to a key makes the call throw the [TypeError]
    of the conversion. *)
Theorem getWeather_window_and_index
        (net : network) (lat lon : number) (k : Z)
        (data : value) (times highs lows rains codes : list value) :
  0 <= k <= 16 ->
  let url :=
    str "https://api.open-meteo.com/v1/forecast?latitude=" ++ toString lat
    ++ str "&longitude=" ++ toString lon
    ++ str "&daily=temperature_2m_max,temperature_2m_min,precipitation_sum,weather_code&temperature_unit=fahrenheit&timezone=America/New_York&forecast_days="
    ++ numeral (k + 1) in
  net url = Some {| ok := true; body := Some data |} ->
  dailySeries data (str "time") = Some times ->
  dailySeries data (str "temperature_2m_max") = Some highs ->
  dailySeries data (str "temperature_2m_min") = Some lows ->
  dailySeries data (str "precipitation_sum") = Some rains ->
  dailySeries data (str "weather_code") = Some codes ->
  let day (series : list value) := nth (Z.to_nat k) series VUndefined in
  requests (getWeather lat lon (of_Z k)) net = [url] /\
  outcome (getWeather lat lon (of_Z k)) net
  = match ToString (day codes) with
    | inr key =>
        inr {| date := day times;
               maxTemp := day highs;
               minTemp := day lows;
               precipitation := day rains;
               weatherCode := day codes;
               weatherDescription :=
                 logical_or (lookup weatherCodes key) (VStr (str "Unknown")) |}
    | inl e => inl e
    end.
Proof.
  intros Hk url Hnet Ht Hh Hl Hr Hc day.
  destruct (integer_offset k Hk) as [Hcheck [Hadd [Hprint _]]].
  assert (Hurl : forecastUrl lat lon (add (of_Z k) (of_Z 1)) = url).
  { unfold forecastUrl, url. rewrite Hadd, Hprint. reflexivity. }
  split.
  - rewrite (getWeather_requests net lat lon (of_Z k) Hcheck). rewrite Hurl.
    reflexivity.
  - rewrite <- Hurl in Hnet.
    assert (D : forall field series,
               dailySeries data field = Some series ->
               daily data field (of_Z k) = inr (day series)).
    { intros field series Hs. unfold day.
      rewrite <- (lookup_integer_offset _ k Hk).
      apply dailySeries_daily. exact Hs. }
    destruct (ToString (day codes)) as [e|key] eqn:Ek.
    + apply (getWeather_throws net lat lon (of_Z k) data (day codes)
               (day times) (day highs) (day lows) (day rains));
        try assumption; apply D; assumption.
    + apply (getWeather_returns net lat lon (of_Z k) data);
        try assumption; apply D; assumption.
Qed.

Lemma getWeather_window_and_index_witness :
  let lat := parseFloat (str "42.49") in
  let lon := parseFloat (str "-71.07") in
  let net := scenario (VNum (of_Z 1)) in
  requests (getWeather lat lon (of_Z 0)) net
  = [str "https://api.open-meteo.com/v1/forecast?latitude=42.49&longitude=-71.07&daily=temperature_2m_max,temperature_2m_min,precipitation_sum,weather_code&temperature_unit=fahrenheit&timezone=America/New_York&forecast_days=1"]
  /\
  outcome (getWeather lat lon (of_Z 0)) net
  = inr {| date := VStr (str "2024-06-01");
           maxTemp := VNum (of_Z 75);
           minTemp := VNum (of_Z 60);
           precipitation := VNum (of_Z 0);
           weatherCode := VNum (of_Z 1);
           weatherDescription := VStr (str "Mainly clear") |}.
Proof.
  intros lat lon net.
  exact (getWeather_window_and_index net lat lon 0
           (forecastBody (VNum (of_Z 1)))
           [VStr (str "2024-06-01")] [VNum (of_Z 75)] [VNum (of_Z 60)]
           [VNum (of_Z 0)] [VNum (of_Z 1)]
           ltac:(lia) ltac:(vm_compute; reflexivity)
           eq_refl eq_refl eq_refl eq_refl eq_refl).
Defined.

(** The same day when its code is an object with a member [toString]:
    the request is made and the call throws. *)
Example getWeather_code_not_convertible :
  let code := VObj [(str "toString", VNum (of_Z 1))] in
  getWeather (of_Z 42) (of_Z (-71)) (of_Z 0) (scenario code)
  = (inl CannotConvert, [forecastUrl (of_Z 42) (of_Z (-71)) (of_Z 1)]).
Proof. vm_compute. reflexivity. Qed.

(** The description of a code that is a number and is no key of the
    table. *)
Lemma lookup_weatherCodes_unmapped (code : number) :
  hasOwn weatherCodes (toString code) = false ->
  logical_or (lookup weatherCodes (toString code)) (VStr (str "Unknown"))
  = VStr (str "Unknown").
Proof.
  unfold hasOwn, lookup, weatherCodes.
  destruct (assoc (toString code) _) as [x|]; [discriminate|].
  intros _. rewrite Object_prototype_number. reflexivity.
Qed.

(** C5. When the weather code of the day is a number that is no key of
    [weatherCodes], [getWeather] does not fail on it: it returns the
    day's record, with the description ["Unknown"]. *)
Theorem getWeather_unmapped_code
        (net : network) (lat lon nextday : number)
        (data : value) (code : number) (day high low rain : value) :
  lessThan nextday (of_Z 0) || greaterThan nextday (of_Z 16) = false ->
  net (forecastUrl lat lon (add nextday (of_Z 1)))
  = Some {| ok := true; body := Some data |} ->
  daily data (str "weather_code") nextday = inr (VNum code) ->
  daily data (str "time") nextday = inr day ->
  daily data (str "temperature_2m_max") nextday = inr high ->
  daily data (str "temperature_2m_min") nextday = inr low ->
  daily data (str "precipitation_sum") nextday = inr rain ->
  hasOwn weatherCodes (toString code) = false ->
  outcome (getWeather lat lon nextday) net
  = inr {| date := day;
           maxTemp := high;
           minTemp := low;
           precipitation := rain;
           weatherCode := VNum code;
           weatherDescription := VStr (str "Unknown") |}.
Proof.
  intros Hcheck Hnet Hc Hd Hh Hl Hr Hown.
  rewrite (getWeather_returns net lat lon nextday data (VNum code)
             day high low rain (toString code)
             Hcheck Hnet Hc Hd Hh Hl Hr eq_refl).
  rewrite (lookup_weatherCodes_unmapped code Hown). reflexivity.
Qed.

Lemma getWeather_unmapped_code_witness :
  let lat := parseFloat (str "42.49") in
  let lon := parseFloat (str "-71.07") in
  hasOwn weatherCodes (toString (of_Z 4)) = false /\
  outcome (getWeather lat lon (of_Z 0)) (scenario (VNum (of_Z 4)))
  = inr unknownRecord.
Proof.
  intros lat lon. split; [reflexivity|].
  exact (getWeather_unmapped_code (scenario (VNum (of_Z 4))) lat lon (of_Z 0)
           (forecastBody (VNum (of_Z 4))) (of_Z 4)
           (VStr (str "2024-06-01")) (VNum (of_Z 75)) (VNum (of_Z 60))
           (VNum (of_Z 0))
           eq_refl ltac:(vm_compute; reflexivity)
           eq_refl eq_refl eq_refl eq_refl eq_refl eq_refl).
Defined.

End GetWeatherFacts.

(* ================================================================== *)
(** ** getCoordinatesFromZip and the pipeline *)
(* ================================================================== *)

Module PipelineFacts.

(** The address service is asked once, whatever it answers. *)
Lemma getCoordinatesFromZip_requests (net : network) (zipCode : jsstring) :
  requests (getCoordinatesFromZip zipCode) net = [geocodeUrl zipCode].
Proof.
  unfold requests, getCoordinatesFromZip, bind, fetch.
  destruct (net _) as [[[|] [data|]]|]; try reflexivity.
  unfold json, ret, lift. cbn [body negb ok].
  destruct (get data _) as [e|places]; [reflexivity|].
  destruct (get places _) as [e|place]; [reflexivity|].
  destruct (get place (str "latitude")) as [e|latitude]; [reflexivity|].
  destruct (ToString latitude) as [e|la]; [reflexivity|].
  destruct (get place (str "longitude")) as [e|longitude]; [reflexivity|].
  destruct (ToString longitude) as [e|lo]; reflexivity.
Qed.

(** A status that is not a success. *)
Lemma getCoordinatesFromZip_not_ok
      (net : network) (zipCode : jsstring) (content : option value) :
  net (geocodeUrl zipCode) = Some {| ok := false; body := content |} ->
  outcome (getCoordinatesFromZip zipCode) net
  = inl (Error (str "Failed to fetch coordinates for ZIP code " ++ zipCode)).
Proof.
  intros Hnet. unfold outcome, getCoordinatesFromZip, bind, fetch.
  rewrite Hnet. reflexivity.
Qed.

(** What is done with the body of a successful response: the reads and
    the conversions, in the order of the source. *)
Lemma getCoordinatesFromZip_body
      (net : network) (zipCode : jsstring) (data : value) :
  net (geocodeUrl zipCode) = Some {| ok := true; body := Some data |} ->
  outcome (getCoordinatesFromZip zipCode) net
  = (places <~ get data (str "places") ;;
     place <~ get places (str "0") ;;
     latitude <~ get place (str "latitude") ;;
     latitudeText <~ ToString latitude ;;
     longitude <~ get place (str "longitude") ;;
     longitudeText <~ ToString longitude ;;
     inr {| lat := parseFloat latitudeText; lon := parseFloat longitudeText |}).
Proof.
  intros Hnet. unfold outcome, getCoordinatesFromZip, bind, fetch.
  rewrite Hnet. unfold json, ret, lift, andThen. cbn [body negb ok].
  destruct (get data _) as [e|places]; [reflexivity|].
  destruct (get places _) as [e|place]; [reflexivity|].
  destruct (get place (str "latitude")) as [e|latitude]; [reflexivity|].
  destruct (ToString latitude) as [e|la]; [reflexivity|].
  destruct (get place (str "longitude")) as [e|longitude]; [reflexivity|].
  destruct (ToString longitude) as [e|lo]; reflexivity.
Qed.

Lemma firstPlace_Some (data place : value) :
  firstPlace data = Some place ->
  exists places,
    get data (str "places") = inr places /\
    get places (str "0") = inr place /\
    forall key, get place key = inr (lookup place key).
Proof.
  unfold firstPlace.
  destruct (get data (str "places")) as [e|places]; [discriminate|].
  destruct (get places (str "0")) as [e|first] eqn:E; [discriminate|].
  intros H. exists places. split; [reflexivity|].
  destruct first; try discriminate; injection H as <-;
    (split; [exact E | intros key; reflexivity]).
Qed.

(** Nothing to read the coordinates from. *)
Lemma getCoordinatesFromZip_no_place
      (net : network) (zipCode : jsstring) (data : value) :
  net (geocodeUrl zipCode) = Some {| ok := true; body := Some data |} ->
  firstPlace data = None ->
  exists base key,
    outcome (getCoordinatesFromZip zipCode) net = inl (CannotRead base key).
Proof.
  intros Hnet H. rewrite (getCoordinatesFromZip_body net zipCode data Hnet).
  unfold firstPlace in H. unfold andThen.
  destruct (get data (str "places")) as [e|places] eqn:E1.
  { rewrite (GetWeatherFacts.get_error _ _ _ E1). eauto. }
  destruct (get places (str "0")) as [e|place] eqn:E2.
  { rewrite (GetWeatherFacts.get_error _ _ _ E2). eauto. }
  destruct place; try discriminate; cbn [get]; eauto.
Qed.

(** The first element of [places] is there. *)
Lemma getCoordinatesFromZip_first
      (net : network) (zipCode : jsstring) (data place : value) :
  net (geocodeUrl zipCode) = Some {| ok := true; body := Some data |} ->
  firstPlace data = Some place ->
  outcome (getCoordinatesFromZip zipCode) net
  = (latitude <~ ToString (lookup place (str "latitude")) ;;
     longitude <~ ToString (lookup place (str "longitude")) ;;
     inr {| lat := parseFloat latitude; lon := parseFloat longitude |}).
Proof.
  intros Hnet H. rewrite (getCoordinatesFromZip_body net zipCode data Hnet).
  destruct (firstPlace_Some data place H) as [places [-> [E Hget]]].
  cbn [andThen]. rewrite E. cbn [andThen]. rewrite !Hget. cbn [andThen].
  destruct (ToString (lookup place (str "latitude"))); reflexivity.
Qed.

Lemma firstPlace_record (data : value)
      (properties : list (jsstring * value)) (rest : list value) :
  get data (str "places") = inr (VArr (VObj properties :: rest)) ->
  firstPlace data = Some (VObj properties).
Proof. intros H. unfold firstPlace. rewrite H. reflexivity. Qed.

(** The first element of [places] is a record whose two fields can be
    converted. *)
Lemma getCoordinatesFromZip_returns
      (net : network) (zipCode : jsstring) (data : value)
      (properties : list (jsstring * value)) (rest : list value)
      (la lo : jsstring) :
  net (geocodeUrl zipCode) = Some {| ok := true; body := Some data |} ->
  get data (str "places") = inr (VArr (VObj properties :: rest)) ->
  ToString (lookup (VObj properties) (str "latitude")) = inr la ->
  ToString (lookup (VObj properties) (str "longitude")) = inr lo ->
  outcome (getCoordinatesFromZip zipCode) net
  = inr {| lat := parseFloat la; lon := parseFloat lo |}.
Proof.
  intros Hnet H Hla Hlo.
  rewrite (getCoordinatesFromZip_first net zipCode data (VObj properties) Hnet
             (firstPlace_record data properties rest H)).
  rewrite Hla, Hlo. reflexivity.
Qed.

(** C4, as the code has it.  [getCoordinatesFromZip] throws, and returns
    nothing, when the address service answers with a status that is not
    a success (the [Error] of the source) and when there is no
    [data.places[0]] to read the coordinates from: [places] missing,
    [null], empty, or its first element [null] (the [TypeError] of
    reading a property of [undefined] or [null]).  Otherwise it takes
    the first element of [places], whatever it is, and returns what
    [parseFloat] reads in the texts of its [latitude] and [longitude],
    or throws the [TypeError] of the conversion when one of them has no
    text: a first element that is no place record (a number, a string,
    a boolean, a list) is not refused, both coordinates are [NaN]
    then. *)
Theorem getCoordinatesFromZip_outcomes
        (net : network) (zipCode : jsstring) (response : Response) :
  net (geocodeUrl zipCode) = Some response ->
  (ok response = false ->
   outcome (getCoordinatesFromZip zipCode) net
   = inl (Error (str "Failed to fetch coordinates for ZIP code " ++ zipCode)))
  /\
  (forall data,
     ok response = true -> body response = Some data ->
     firstPlace data = None ->
     exists base key,
       outcome (getCoordinatesFromZip zipCode) net
       = inl (CannotRead base key))
  /\
  (forall data place,
     ok response = true -> body response = Some data ->
     firstPlace data = Some place ->
     outcome (getCoordinatesFromZip zipCode) net
     = match ToString (lookup place (str "latitude")),
             ToString (lookup place (str "longitude")) with
       | inr latitude, inr longitude =>
           inr {| lat := parseFloat latitude; lon := parseFloat longitude |}
       | inl e, _ => inl e
       | inr _, inl e => inl e
       end)
  /\
  (forall data place,
     ok response = true -> body response = Some data ->
     firstPlace data = Some place -> isRecord place = false ->
     outcome (getCoordinatesFromZip zipCode) net
     = inr {| lat := NaN; lon := NaN |}).
Proof.
  intros Hnet. destruct response as [status content]. cbn [ok body].
  split; [|split; [|split]].
  - intros ->. exact (getCoordinatesFromZip_not_ok net zipCode content Hnet).
  - intros data -> -> H.
    exact (getCoordinatesFromZip_no_place net zipCode data Hnet H).
  - intros data place -> -> H.
    rewrite (getCoordinatesFromZip_first net zipCode data place Hnet H).
    unfold andThen.
    destruct (ToString (lookup place (str "latitude"))); [reflexivity|].
    destruct (ToString (lookup place (str "longitude"))); reflexivity.
  - intros data place -> -> H Hrec.
    rewrite (getCoordinatesFromZip_first net zipCode data place Hnet H).
    destruct place; try discriminate; reflexivity.
Qed.

Lemma getCoordinatesFromZip_outcomes_witness :
  outcome (getCoordinatesFromZip (str "00000")) (scenario VNull)
  = inl (Error (str "Failed to fetch coordinates for ZIP code 00000"))
  /\
  (exists base key,
     outcome (getCoordinatesFromZip (str "00000"))
             (fun _ => Some {| ok := true; body := Some (VObj []) |})
     = inl (CannotRead base key))
  /\
  outcome (getCoordinatesFromZip (str "02148")) (scenario VNull)
  = inr {| lat := parseFloat (str "42.49"); lon := parseFloat (str "-71.07") |}
  /\
  outcome (getCoordinatesFromZip (str "00000"))
          (fun _ => Some {| ok := true; body := Some noRecordBody |})
  = inr {| lat := NaN; lon := NaN |}.
Proof.
  split; [|split; [|split]].
  - exact (proj1 (getCoordinatesFromZip_outcomes (scenario VNull) (str "00000")
                    {| ok := false; body := Some (VObj []) |} eq_refl) eq_refl).
  - exact (proj1 (proj2 (getCoordinatesFromZip_outcomes
                           (fun _ => Some {| ok := true; body := Some (VObj []) |})
                           (str "00000")
                           {| ok := true; body := Some (VObj []) |} eq_refl))
                 (VObj []) eq_refl eq_refl eq_refl).
  - exact (proj1 (proj2 (proj2 (getCoordinatesFromZip_outcomes (scenario VNull)
                                  (str "02148")
                                  {| ok := true; body := Some geocodeBody |}
                                  eq_refl)))
                 geocodeBody _ eq_refl eq_refl eq_refl).
  - exact (proj2 (proj2 (proj2 (getCoordinatesFromZip_outcomes
                                  (fun _ => Some {| ok := true;
                                                    body := Some noRecordBody |})
                                  (str "00000")
                                  {| ok := true; body := Some noRecordBody |}
                                  eq_refl)))
                 noRecordBody _ eq_refl eq_refl eq_refl eq_refl).
Defined.

(** C4 as stated fails: the service answers with success, its answer
    has no place record, and the call does not fail: it returns
    coordinates that are both [NaN]. *)
Lemma getCoordinatesFromZip_outcomes_counterexample :
  placeRecords noRecordBody = [] /\
  outcome (getCoordinatesFromZip (str "00000"))
          (fun _ => Some {| ok := true; body := Some noRecordBody |})
  = inr {| lat := NaN; lon := NaN |}.
Proof. split; reflexivity. Qed.

Lemma parseFloat_within_90 (s : jsstring) :
  numeralWithin 90 s = true -> within 90 (parseFloat s) = true.
Proof.
  unfold numeralWithin.
  destruct (decimalNumeral s) as [[[neg m] k]|] eqn:E; [|discriminate].
  intros H. apply Z.leb_le in H.
  destruct (parseFloat_decimalNumeral s neg m k E) as [-> Hm].
  apply within_90. lia.
Qed.

Lemma parseFloat_within_180 (s : jsstring) :
  numeralWithin 180 s = true -> within 180 (parseFloat s) = true.
Proof.
  unfold numeralWithin.
  destruct (decimalNumeral s) as [[[neg m] k]|] eqn:E; [|discriminate].
  intros H. apply Z.leb_le in H.
  destruct (parseFloat_decimalNumeral s neg m k E) as [-> Hm].
  apply within_180. lia.
Qed.

(** C9, as the code has it.  [getCoordinatesFromZip] checks nothing: it
    returns what [parseFloat] reads in the fields of the first place
    record.  When these are, as the address service gives them, the
    decimal numerals of a latitude between -90 and 90 and of a longitude
    between -180 and 180, the coordinates returned are both finite and
    within these ranges. *)
Theorem getCoordinatesFromZip_valid
        (net : network) (zipCode : jsstring)
        (data : value) (properties : list (jsstring * value)) (rest : list value)
        (latitude longitude : jsstring) :
  net (geocodeUrl zipCode) = Some {| ok := true; body := Some data |} ->
  get data (str "places") = inr (VArr (VObj properties :: rest)) ->
  assoc (str "latitude") properties = Some (VStr latitude) ->
  assoc (str "longitude") properties = Some (VStr longitude) ->
  numeralWithin 90 latitude = true ->
  numeralWithin 180 longitude = true ->
  exists coords,
    outcome (getCoordinatesFromZip zipCode) net = inr coords /\
    coords = {| lat := parseFloat latitude; lon := parseFloat longitude |} /\
    validCoordinates coords = true.
Proof.
  intros Hnet Hplaces Hla Hlo Wla Wlo.
  eexists. split; [|split; [reflexivity|]].
  - apply (getCoordinatesFromZip_returns net zipCode data properties rest);
      try assumption; unfold lookup; [rewrite Hla | rewrite Hlo]; reflexivity.
  - apply parseFloat_within_90 in Wla. apply parseFloat_within_180 in Wlo.
    unfold within in Wla, Wlo. unfold validCoordinates. cbn [lat lon].
    apply andb_true_iff in Wla as [Wla A3]. apply andb_true_iff in Wla as [A1 A2].
    apply andb_true_iff in Wlo as [Wlo B3]. apply andb_true_iff in Wlo as [B1 B2].
    change (- (90)) with (-90) in A2. change (- (180)) with (-180) in B2.
    rewrite A1, A2, A3, B1, B2, B3. reflexivity.
Qed.

Lemma getCoordinatesFromZip_valid_witness :
  (numeralWithin 90 (str "42.49") = true /\
   numeralWithin 180 (str "-71.07") = true) /\
  exists coords,
    outcome (getCoordinatesFromZip (str "02148")) (scenario VNull) = inr coords /\
    coords = {| lat := parseFloat (str "42.49");
                lon := parseFloat (str "-71.07") |} /\
    validCoordinates coords = true.
Proof.
  split; [split; reflexivity|].
  exact (getCoordinatesFromZip_valid (scenario VNull) (str "02148") geocodeBody
           _ [] (str "42.49") (str "-71.07")
           eq_refl eq_refl eq_refl eq_refl eq_refl eq_refl).
Defined.

(** C9 as stated fails: the service answers with success and a place
    record, and the coordinates returned are [NaN] and 1000. *)
Lemma getCoordinatesFromZip_valid_counterexample :
  outcome (getCoordinatesFromZip (str "99999")) strayNetwork
  = inr {| lat := NaN; lon := of_Z 1000 |}
  /\ isFinite NaN = false
  /\ lessOrEqual (of_Z 1000) (of_Z 180) = false
  /\ validCoordinates {| lat := NaN; lon := of_Z 1000 |} = false.
Proof. repeat split. Qed.

(** C3. [getReadableWeatherByZip] runs [getCoordinatesFromZip], then
    [getWeather] on the coordinates, then [formatWeather] on the record.
    When the first throws, the pipeline throws the same exception and
    the address service is all that was requested; when the second
    throws, the pipeline throws the same exception; otherwise it ends
    as [formatWeather] does on the record: with the block, or with the
    exception it throws. *)
Theorem getReadableWeatherByZip_pipeline
        (net : network) (zipCode : jsstring) (daysAhead : number) :
  match getCoordinatesFromZip zipCode net with
  | (inl e, reqs) =>
      getReadableWeatherByZip zipCode daysAhead net = (inl e, reqs)
      /\ reqs = [geocodeUrl zipCode]
  | (inr coords, reqs) =>
      match getWeather (lat coords) (lon coords) daysAhead net with
      | (inl e, reqs') =>
          getReadableWeatherByZip zipCode daysAhead net = (inl e, reqs ++ reqs')
      | (inr weather, reqs') =>
          getReadableWeatherByZip zipCode daysAhead net
          = (formatWeather weather, reqs ++ reqs')
      end
  end.
Proof.
  pose proof (getCoordinatesFromZip_requests net zipCode) as R.
  unfold requests in R.
  unfold getReadableWeatherByZip, getWeatherByZip, bind.
  destruct (getCoordinatesFromZip zipCode net) as [[e|coords] reqs].
  - split; [reflexivity | exact R].
  - destruct (getWeather (lat coords) (lon coords) daysAhead net)
      as [[e|weather] reqs']; [reflexivity|].
    unfold lift. rewrite app_nil_r. reflexivity.
Qed.

(** The two scenarios of the specification. *)
Example getReadableWeatherByZip_scenario :
  getReadableWeatherByZip (str "02148") (of_Z 0) (scenario (VNum (of_Z 1)))
  = (inr (str "Weather Forecast for 2024-06-01" ++ LF
          ++ str "Condition: Mainly clear" ++ LF
          ++ str "High: 75" ++ DEGREE ++ str "F" ++ LF
          ++ str "Low: 60" ++ DEGREE ++ str "F" ++ LF
          ++ str "Precipitation: 0 mm" ++ LF
          ++ str "Description: Mainly clear"),
     [ str "https://api.zippopotam.us/us/02148";
       str "https://api.open-meteo.com/v1/forecast?latitude=42.49&longitude=-71.07&daily=temperature_2m_max,temperature_2m_min,precipitation_sum,weather_code&temperature_unit=fahrenheit&timezone=America/New_York&forecast_days=1" ]).
Proof. vm_compute. reflexivity. Qed.

Example getReadableWeatherByZip_geocode_404 :
  getReadableWeatherByZip (str "00000") (of_Z 0) (scenario (VNum (of_Z 1)))
  = (inl (Error (str "Failed to fetch coordinates for ZIP code 00000")),
     [ str "https://api.zippopotam.us/us/00000" ]).
Proof. vm_compute. reflexivity. Qed.

End PipelineFacts.

(* ================================================================== *)
(** ** createTool *)
(* ================================================================== *)

Section MainFacts.

Context {Ctx : Type}.
Variable zodToJsonSchema : forall T, ZodObject T -> list (jsstring * value).

Lemma set_absent (key : jsstring) (x : value) (properties : list (jsstring * value)) :
  assoc key properties = None -> set key x properties = properties ++ [(key, x)].
Proof.
  induction properties as [|[k v] r IH]; simpl; [reflexivity|].
  destruct (JsString.eqb key k); [discriminate|].
  intros H. rewrite (IH H). reflexivity.
Qed.

Lemma assoc_app_absent {A} (key : jsstring) (l r : list (jsstring * A)) :
  assoc key l = None -> assoc key (l ++ r) = assoc key r.
Proof.
  induction l as [|[k v] l IH]; simpl; [reflexivity|].
  destruct (JsString.eqb key k); [discriminate | exact IH].
Qed.

(** C8. When the JSON Schema derived from the schema has no [type] at
    its root, the descriptor that [createTool] returns has the derived
    members followed by [type: "object"], so that its root type reads
    ["object"]. *)
Theorem createTool_root_type {T ToolResult}
        (options : Options.t T Ctx ToolResult) :
  let derived := zodToJsonSchema T (Options.schema options) in
  assoc (str "type") derived = None ->
  Tool.parameters (createTool zodToJsonSchema options)
  = VObj (derived ++ [(str "type", VStr (str "object"))])
  /\ lookup (Tool.parameters (createTool zodToJsonSchema options)) (str "type")
     = VStr (str "object").
Proof.
  intros derived H.
  assert (P : Tool.parameters (createTool zodToJsonSchema options)
              = VObj (derived ++ [(str "type", VStr (str "object"))])).
  { unfold createTool. cbn [Tool.parameters]. fold derived.
    unfold lookup. rewrite H.
    change (ToBoolean (Object_prototype (str "type"))) with false.
    cbn [negb]. rewrite (set_absent _ _ _ H). reflexivity. }
  split; [exact P|].
  rewrite P. unfold lookup. rewrite (assoc_app_absent _ _ _ H). reflexivity.
Qed.

(** C7. The [execute] of the tool validates first.  A payload that the
    schema rejects makes the call fail with the [ZodError] of the
    validation, with no effect: [options.execute] is not run.  A payload
    that the schema accepts makes the call behave as one run of
    [options.execute] on the parsed value does: same outcome, same
    requests. *)
Theorem createTool_validates_first {T ToolResult}
        (options : Options.t T Ctx ToolResult)
        (params : value) (ctx : Ctx) (net : network) :
  Tool.execute (createTool zodToJsonSchema options) params ctx net
  = match parse (Options.schema options) params with
    | inl issues => (inl (ZodError issues), [])
    | inr validated => Options.execute options validated ctx net
    end.
Proof.
  unfold createTool. cbn [Tool.execute]. unfold bind, parseAsync.
  destruct (parse (Options.schema options) params) as [issues|validated].
  - reflexivity.
  - unfold ret. destruct (Options.execute options validated ctx net) as [r reqs].
    reflexivity.
Qed.

End MainFacts.

Lemma createTool_root_type_witness :
  assoc (str "type") (untypedConversion _ forecastSchema) = None /\
  lookup (Tool.parameters
            (weatherForcasting (Ctx := unit) untypedConversion forecastSchema))
         (str "type")
  = VStr (str "object").
Proof.
  split; [reflexivity|].
  exact (proj2 (createTool_root_type (Ctx := unit) untypedConversion
                  {| Options.name := str "weatherForcasting";
                     Options.description :=
                       str "Get the weather forecast for a U.S. zipcode for N days ahead";
                     Options.schema := forecastSchema;
                     Options.execute := fun params _ =>
                       getReadableWeatherByZip (zipcode params) (daysAhead params) |}
                  eq_refl)).
Defined.

(** The tool on the two payloads: the rejected one requests nothing, the
    accepted one runs the pipeline once. *)
Example weatherForcasting_rejects :
  Tool.execute (weatherForcasting untypedConversion forecastSchema)
               badPayload tt (scenario (VNum (of_Z 1)))
  = (inl (ZodError [str "zipcode"]), []).
Proof. vm_compute. reflexivity. Qed.

Example weatherForcasting_accepts :
  Tool.execute (weatherForcasting untypedConversion forecastSchema)
               goodPayload tt (scenario (VNum (of_Z 1)))
  = getReadableWeatherByZip (str "02148") (of_Z 0) (scenario (VNum (of_Z 1))).
Proof. vm_compute. reflexivity. Qed.

(* ================================================================== *)
(** ** Further properties of formatWeather *)
(* ================================================================== *)

Module FormatMore.

Lemma forallb_trimEnd (s : jsstring) :
  forallb is_ws (trimEnd s) = forallb is_ws s.
Proof.
  induction s as [|c r IH]; [reflexivity|].
  cbn [trimEnd]. destruct (forallb is_ws (c :: r)) eqn:E; [reflexivity|].
  cbn [forallb] in *. rewrite IH. exact E.
Qed.

Lemma trimEnd_idempotent (s : jsstring) : trimEnd (trimEnd s) = trimEnd s.
Proof.
  induction s as [|c r IH]; [reflexivity|].
  cbn [trimEnd]. destruct (forallb is_ws (c :: r)) eqn:E; [reflexivity|].
  cbn [trimEnd]. rewrite IH.
  cbn [forallb] in *. rewrite forallb_trimEnd, E. reflexivity.
Qed.

Lemma trimStart_idempotent (s : jsstring) : trimStart (trimStart s) = trimStart s.
Proof.
  induction s as [|c r IH]; [reflexivity|].
  cbn [trimStart]. destruct (is_ws c) eqn:E; [exact IH|].
  cbn [trimStart]. rewrite E. reflexivity.
Qed.

Lemma trimStart_trimEnd (s : jsstring) :
  trimStart s = s -> trimStart (trimEnd s) = trimEnd s.
Proof.
  destruct s as [|c r]; [reflexivity|].
  cbn [trimStart]. destruct (is_ws c) eqn:E.
  - intros H. exfalso.
    assert (L : (List.length (trimStart r) <= List.length r)%nat).
    { clear. induction r as [|x r IH]; simpl; [lia|].
      destruct (is_ws x); simpl; lia. }
    rewrite H in L. simpl in L. lia.
  - intros _. cbn [trimEnd forallb]. rewrite E. cbn [andb trimStart].
    rewrite E. reflexivity.
Qed.

(** [s.trim().trim()] is [s.trim()]. *)
Lemma trim_idempotent (s : jsstring) : trim (trim s) = trim s.
Proof.
  unfold trim.
  rewrite (trimStart_trimEnd (trimStart s)) by apply trimStart_idempotent.
  apply trimEnd_idempotent.
Qed.

(** X1. For every record that conforms to [WeatherData] (strings for
    the date and the description, numbers for the readings),
    [formatWeather] returns a block that begins with the words
    [Weather Forecast for] and has no white space at either end:
    trimming it again changes nothing. *)
Theorem formatWeather_is_trimmed
        (day description : jsstring) (high low rain code : number) :
  exists block,
    formatWeather (conforming day description high low rain code) = inr block /\
    startsWith (str "Weather Forecast for ") block = true /\
    trim block = block.
Proof.
  eexists. split; [apply FormatFacts.formatWeather_conforming|]. split.
  - unfold heading.
    apply startsWith_spec. rewrite <- !app_assoc. eexists. reflexivity.
  - rewrite <- (FormatFacts.trim_template day description (toString high)
                  (toString low) (toString rain) description).
    apply trim_idempotent.
Qed.

Lemma lineFeeds_trimEnd (s : jsstring) :
  lineFeeds s = 0%nat -> lineFeeds (trimEnd s) = 0%nat.
Proof.
  unfold lineFeeds. induction s as [|c r IH]; [reflexivity|].
  cbn [trimEnd]. destruct (forallb is_ws (c :: r)); [reflexivity|].
  cbn [count_occ]. destruct (N.eq_dec c 10); [discriminate|]. exact IH.
Qed.

Lemma lineFeeds_digits_aux (fuel : nat) (n : Z) (acc : jsstring) :
  lineFeeds (digits_aux fuel n acc) = lineFeeds acc.
Proof.
  assert (D : forall m acc', lineFeeds (digit (m mod 10) :: acc') = lineFeeds acc').
  { intros m acc'. unfold lineFeeds, digit. cbn [count_occ].
    destruct (N.eq_dec _ 10) as [E|_]; [|reflexivity].
    pose proof (Z.mod_pos_bound m 10 ltac:(lia)) as B.
    apply (f_equal Z.of_N) in E. rewrite Z2N.id in E by lia.
    change (Z.of_N 10) with 10 in E. lia. }
  revert n acc. induction fuel as [|fuel IH]; intros n acc; cbn [digits_aux].
  - apply D.
  - destruct (n / 10 =? 0); [apply D|]. rewrite IH. apply D.
Qed.

Lemma lineFeeds_firstn_skipn (k : nat) (s : jsstring) :
  lineFeeds s = 0%nat ->
  lineFeeds (firstn k s) = 0%nat /\ lineFeeds (skipn k s) = 0%nat.
Proof.
  intros H. rewrite <- (firstn_skipn k s), FormatFacts.lineFeeds_app in H. lia.
Qed.

Lemma lineFeeds_zeros (k : nat) : lineFeeds (repeat 48%N k) = 0%nat.
Proof. induction k as [|k IH]; [reflexivity | exact IH]. Qed.

Lemma lineFeeds_layout (ds : jsstring) (n : Z) :
  lineFeeds ds = 0%nat -> lineFeeds (layout ds n) = 0%nat.
Proof.
  intros H. unfold layout.
  destruct ((Z.of_nat (List.length ds) <=? n) && (n <=? 21)).
  { rewrite FormatFacts.lineFeeds_app, H, lineFeeds_zeros. reflexivity. }
  destruct ((0 <? n) && (n <=? 21)).
  { destruct (lineFeeds_firstn_skipn (Z.to_nat n) ds H) as [F S].
    rewrite !FormatFacts.lineFeeds_app, F, S. reflexivity. }
  destruct ((-6 <? n) && (n <=? 0)).
  { rewrite !FormatFacts.lineFeeds_app, H, lineFeeds_zeros. reflexivity. }
  assert (N : forall e, lineFeeds (numeral e) = 0%nat)
    by (intros e; apply lineFeeds_digits_aux).
  assert (S : lineFeeds (if n - 1 <? 0 then str "-" else str "+") = 0%nat)
    by (destruct (n - 1 <? 0); reflexivity).
  destruct ds as [|d [|d' rest]]; [reflexivity| |].
  - rewrite !FormatFacts.lineFeeds_app, H, S, N. reflexivity.
  - change (d :: d' :: rest) with ([d] ++ d' :: rest) in H.
    rewrite FormatFacts.lineFeeds_app in H.
    rewrite !FormatFacts.lineFeeds_app, S, N.
    change (lineFeeds (str ".")) with 0%nat.
    change (lineFeeds (str "e")) with 0%nat. lia.
Qed.

(** A printed number has no line feed. *)
Lemma lineFeeds_toString (x : number) : lineFeeds (toString x) = 0%nat.
Proof.
  destruct x as [s|s| |s m e]; unfold toString; try reflexivity.
  - destruct s; reflexivity.
  - destruct (exact_fraction m e) as [num den].
    destruct (shortest 16 _ num den _ 1) as [digits n].
    rewrite FormatFacts.lineFeeds_app, lineFeeds_layout by apply lineFeeds_digits_aux.
    destruct s; reflexivity.
Qed.

(** X2. A record that conforms to [WeatherData] (a date and a
    description that are strings, three numbers) and whose two strings
    have no line feed is formatted as six lines: the block is returned
    and has five line feeds. *)
Theorem formatWeather_six_lines
        (day description : jsstring) (high low rain code : number) :
  lineFeeds day = 0%nat ->
  lineFeeds description = 0%nat ->
  exists block,
    formatWeather {| date := VStr day;
                     maxTemp := VNum high;
                     minTemp := VNum low;
                     precipitation := VNum rain;
                     weatherCode := VNum code;
                     weatherDescription := VStr description |}
    = inr block
    /\ lineFeeds block = 5%nat.
Proof.
  intros Hd Hs. eexists.
  split; [exact (FormatFacts.formatWeather_conforming day description
                   high low rain code)|].
  unfold heading.
  assert (T : lineFeeds (trimEnd (str " " ++ description)) = 0%nat).
  { apply lineFeeds_trimEnd. rewrite FormatFacts.lineFeeds_app, Hs. reflexivity. }
  rewrite !FormatFacts.lineFeeds_app, T, Hd, Hs, !lineFeeds_toString. reflexivity.
Qed.

Lemma formatWeather_six_lines_witness :
  (lineFeeds (str "2024-06-01") = 0%nat /\ lineFeeds (str "Unknown") = 0%nat) /\
  exists block,
    formatWeather unknownRecord = inr block /\ lineFeeds block = 5%nat.
Proof.
  split; [split; reflexivity|].
  exact (formatWeather_six_lines (str "2024-06-01") (str "Unknown")
           (of_Z 75) (of_Z 60) (of_Z 0) (of_Z 4) eq_refl eq_refl).
Defined.

(** X23. [formatWeather] throws exactly when one of the five fields it
    prints (the date, the description, the two temperatures, the
    precipitation) cannot be converted to a string, and what it throws
    then is the [TypeError] of the conversion; in every other case it
    returns a block.  The weather code is not printed and does not
    matter. *)
Theorem formatWeather_throws_iff (weather : WeatherData) :
  match formatWeather weather with
  | inr block =>
      forall field, In field (printed weather) -> text field <> None
  | inl e =>
      e = CannotConvert /\
      exists field, In field (printed weather) /\ text field = None
  end.
Proof.
  unfold formatWeather, ToString, andThen, printed.
  destruct (text (date weather)) eqn:Ed;
    [|split; [reflexivity | eexists; split; [|exact Ed]; cbn; tauto]].
  destruct (text (weatherDescription weather)) eqn:Ec;
    [|split; [reflexivity | eexists; split; [|exact Ec]; cbn; tauto]].
  destruct (text (maxTemp weather)) eqn:Eh;
    [|split; [reflexivity | eexists; split; [|exact Eh]; cbn; tauto]].
  destruct (text (minTemp weather)) eqn:El;
    [|split; [reflexivity | eexists; split; [|exact El]; cbn; tauto]].
  destruct (text (precipitation weather)) eqn:Er;
    [|split; [reflexivity | eexists; split; [|exact Er]; cbn; tauto]].
  intros field [<-|[<-|[<-|[<-|[<-|[]]]]]]; congruence.
Qed.

End FormatMore.

(* ================================================================== *)
(** ** Further properties of getWeather *)
(* ================================================================== *)

Module GetWeatherMore.

Lemma not_le_lt (a b : number) :
  a <> NaN -> b <> NaN -> lessOrEqual a b = false -> lessThan b a = true.
Proof.
  unfold lessOrEqual, lessThan, SFleb, SFltb, NaN.
  rewrite (SFcompare_antisym a b).
  destruct a as [sa|sa| |sa ma ea], b as [sb|sb| |sb mb eb];
    try congruence; intros _ _;
    destruct (SFcompare _ _) as [[ | | ]|] eqn:E; simpl; try congruence;
    simpl in E; try discriminate;
    destruct sa; try destruct sb; discriminate.
Qed.

Lemma of_Z_not_NaN_0 : of_Z 0 <> NaN.
Proof. discriminate. Qed.

Lemma of_Z_not_NaN_16 : of_Z 16 <> NaN.
Proof. discriminate. Qed.

(** X3. Every number other than [NaN] that is not between 0 and 16
    (a fraction below 0, [-Infinity] and [Infinity] among them) makes
    [getWeather] throw the range error, and nothing is requested. *)
Theorem getWeather_rejects_out_of_range
        (net : network) (lat lon nextday : number) :
  nextday <> NaN ->
  lessOrEqual (of_Z 0) nextday && lessOrEqual nextday (of_Z 16) = false ->
  getWeather lat lon nextday net = (inl rangeError, []).
Proof.
  intros Hn H. apply GetWeatherFacts.getWeather_below_or_above.
  apply andb_false_iff in H as [H|H].
  - rewrite (not_le_lt _ _ of_Z_not_NaN_0 Hn H). reflexivity.
  - unfold greaterThan. fold (lessThan (of_Z 16) nextday).
    rewrite (not_le_lt _ _ Hn of_Z_not_NaN_16 H). apply orb_true_r.
Qed.

Lemma getWeather_rejects_out_of_range_witness :
  (Infinity <> NaN /\
   lessOrEqual (of_Z 0) Infinity && lessOrEqual Infinity (of_Z 16) = false) /\
  getWeather (of_Z 42) (of_Z (-71)) Infinity (scenario VNull)
  = (inl rangeError, []).
Proof.
  split; [split; [discriminate | reflexivity]|].
  exact (getWeather_rejects_out_of_range (scenario VNull) (of_Z 42) (of_Z (-71))
           Infinity ltac:(discriminate) eq_refl).
Defined.

(** X4. Once the bounds check has passed, [getWeather] makes its one
    request and reports what went wrong with it: [fetch] rejecting, a
    status that is not a success (whatever the body, which is not read),
    a body that is not JSON. *)
Theorem getWeather_transport (net : network) (lat lon nextday : number) :
  lessThan nextday (of_Z 0) || greaterThan nextday (of_Z 16) = false ->
  let url := forecastUrl lat lon (add nextday (of_Z 1)) in
  match net url with
  | None => getWeather lat lon nextday net = (inl FetchFailed, [url])
  | Some {| ok := false; body := _ |} =>
      getWeather lat lon nextday net
      = (inl (Error (str "Failed to fetch weather data")), [url])
  | Some {| ok := true; body := None |} =>
      getWeather lat lon nextday net = (inl JsonSyntaxError, [url])
  | Some {| ok := true; body := Some _ |} =>
      requests (getWeather lat lon nextday) net = [url]
  end.
Proof.
  intros H url.
  pose proof (GetWeatherFacts.getWeather_requests net lat lon nextday H) as R.
  fold url in R. revert R.
  unfold requests, getWeather. rewrite H. fold url. unfold bind, fetch.
  destruct (net url) as [[[|] [data|]]|]; intros R; try reflexivity.
  exact R.
Qed.

Lemma getWeather_transport_witness :
  getWeather (of_Z 42) (of_Z (-71)) (of_Z 3) (fun _ => None)
  = (inl FetchFailed, [forecastUrl (of_Z 42) (of_Z (-71)) (of_Z 4)])
  /\
  getWeather (of_Z 42) (of_Z (-71)) (of_Z 3)
             (fun _ => Some {| ok := false; body := None |})
  = (inl (Error (str "Failed to fetch weather data")),
     [forecastUrl (of_Z 42) (of_Z (-71)) (of_Z 4)]).
Proof.
  split.
  - exact (getWeather_transport (fun _ => None) (of_Z 42) (of_Z (-71)) (of_Z 3)
             eq_refl).
  - exact (getWeather_transport (fun _ => Some {| ok := false; body := None |})
             (of_Z 42) (of_Z (-71)) (of_Z 3) eq_refl).
Defined.

(** X5. When the response carries the five series but they are too
    short to have an entry for day [k], [getWeather] does not fail: it
    returns a record whose readings are all [undefined] and whose
    description is ["Unknown"]. *)
Theorem getWeather_missing_day
        (net : network) (lat lon : number) (k : Z)
        (data : value) (times highs lows rains codes : list value) :
  0 <= k <= 16 ->
  net (forecastUrl lat lon (of_Z (k + 1)))
  = Some {| ok := true; body := Some data |} ->
  dailySeries data (str "time") = Some times ->
  dailySeries data (str "temperature_2m_max") = Some highs ->
  dailySeries data (str "temperature_2m_min") = Some lows ->
  dailySeries data (str "precipitation_sum") = Some rains ->
  dailySeries data (str "weather_code") = Some codes ->
  (List.length times <= Z.to_nat k)%nat ->
  (List.length highs <= Z.to_nat k)%nat ->
  (List.length lows <= Z.to_nat k)%nat ->
  (List.length rains <= Z.to_nat k)%nat ->
  (List.length codes <= Z.to_nat k)%nat ->
  outcome (getWeather lat lon (of_Z k)) net = inr missingDay.
Proof.
  intros Hk Hnet Ht Hh Hl Hr Hc Lt Lh Ll Lr Lc.
  destruct (integer_offset k Hk) as [Hcheck [Hadd _]].
  rewrite <- Hadd in Hnet.
  assert (D : forall field series,
             dailySeries data field = Some series ->
             (List.length series <= Z.to_nat k)%nat ->
             daily data field (of_Z k) = inr VUndefined).
  { intros field series Hs Hlen.
    rewrite (GetWeatherFacts.dailySeries_daily _ _ _ _ Hs).
    rewrite (GetWeatherFacts.lookup_integer_offset _ k Hk).
    rewrite nth_overflow by exact Hlen. reflexivity. }
  rewrite (GetWeatherFacts.getWeather_returns net lat lon (of_Z k) data
             VUndefined VUndefined VUndefined VUndefined VUndefined
             (str "undefined")
             Hcheck Hnet (D _ _ Hc Lc) (D _ _ Ht Lt) (D _ _ Hh Lh)
             (D _ _ Hl Ll) (D _ _ Hr Lr) eq_refl).
  reflexivity.
Qed.

Lemma getWeather_missing_day_witness :
  outcome (getWeather (of_Z 42) (of_Z (-71)) (of_Z 1)) (scenario (VNum (of_Z 1)))
  = inr missingDay.
Proof.
  exact (getWeather_missing_day (scenario (VNum (of_Z 1))) (of_Z 42) (of_Z (-71)) 1
           (forecastBody (VNum (of_Z 1)))
           [VStr (str "2024-06-01")] [VNum (of_Z 75)] [VNum (of_Z 60)]
           [VNum (of_Z 0)] [VNum (of_Z 1)]
           ltac:(lia) ltac:(vm_compute; reflexivity)
           eq_refl eq_refl eq_refl eq_refl eq_refl
           (le_n 1) (le_n 1) (le_n 1) (le_n 1) (le_n 1)).
Defined.

(** X6. A successful response without [daily] makes [getWeather] fail
    on its first reading, that of the weather code, with the
    [TypeError] of reading [weather_code] of [undefined]. *)
Theorem getWeather_missing_daily
        (net : network) (lat lon nextday : number) (data : value) :
  lessThan nextday (of_Z 0) || greaterThan nextday (of_Z 16) = false ->
  net (forecastUrl lat lon (add nextday (of_Z 1)))
  = Some {| ok := true; body := Some data |} ->
  get data (str "daily") = inr VUndefined ->
  getWeather lat lon nextday net
  = (inl (CannotRead VUndefined (str "weather_code")),
     [forecastUrl lat lon (add nextday (of_Z 1))]).
Proof.
  intros H Hnet Hd. unfold getWeather. rewrite H.
  unfold bind, fetch. rewrite Hnet.
  unfold json, ret, lift, daily. cbn [body negb ok]. rewrite Hd. reflexivity.
Qed.

Lemma getWeather_missing_daily_witness :
  let net : network :=
    fun _ => Some {| ok := true; body := Some (VObj [(str "error", VBool true)]) |} in
  getWeather (of_Z 42) (of_Z (-71)) (of_Z 0) net
  = (inl (CannotRead VUndefined (str "weather_code")),
     [forecastUrl (of_Z 42) (of_Z (-71)) (of_Z 1)]).
Proof.
  intros net.
  exact (getWeather_missing_daily net (of_Z 42) (of_Z (-71)) (of_Z 0)
           (VObj [(str "error", VBool true)]) eq_refl eq_refl eq_refl).
Defined.

Lemma assoc_Forall {A} (P : A -> Prop) (key : jsstring)
      (l : list (jsstring * A)) (x : A) :
  Forall (fun kv => P (snd kv)) l -> assoc key l = Some x -> P x.
Proof.
  induction 1 as [|[k v] r Hv _ IH]; simpl; [discriminate|].
  destruct (JsString.eqb key k); [|exact IH].
  intros E. injection E as <-. exact Hv.
Qed.

Lemma weatherCodes_entries :
  Forall (fun kv => exists s, snd kv = VStr s /\ s <> [])
         (ownProperties weatherCodes).
Proof.
  unfold weatherCodes, ownProperties.
  repeat (constructor; [eexists; split; [reflexivity | discriminate]|]).
  constructor.
Qed.

(** X7. For a weather code that is a number, the key is the printed
    code and the description is always a string that is not empty: the
    entry of [weatherCodes] under the printed code when there is one,
    ["Unknown"] otherwise.  No entry of the table is overridden by the
    fallback and no inherited member shows through. *)
Theorem weatherDescription_of_number (code : number) :
  exists s,
    ToString (VNum code) = inr (toString code)
    /\ logical_or (lookup weatherCodes (toString code)) (VStr (str "Unknown"))
       = VStr s
    /\ s <> []
    /\ match assoc (toString code) (ownProperties weatherCodes) with
       | Some entry => entry = VStr s
       | None => s = str "Unknown"
       end.
Proof.
  change (lookup weatherCodes (toString code))
    with (match assoc (toString code) (ownProperties weatherCodes) with
          | Some x => x
          | None => Object_prototype (toString code)
          end).
  destruct (assoc (toString code) (ownProperties weatherCodes)) as [entry|] eqn:E.
  - destruct (assoc_Forall (fun v => exists s, v = VStr s /\ s <> []) _ _ _
                weatherCodes_entries E) as [s [-> Hs]].
    exists s. split; [reflexivity|]. repeat split; [|exact Hs].
    destruct s; [congruence|reflexivity].
  - rewrite Object_prototype_number. exists (str "Unknown").
    split; [reflexivity|]. repeat split. discriminate.
Qed.





End GetWeatherMore.

(* ================================================================== *)
(** ** Further properties of getCoordinatesFromZip and the pipeline *)
(* ================================================================== *)

Module PipelineMore.

(** X9. [getCoordinatesFromZip] makes one request, for the address
    service's URL followed by the ZIP code as given, and reports what
    went wrong with it: [fetch] rejecting, a status that is not a success
    (whatever the body, which is not read), a body that is not JSON. *)
Theorem getCoordinatesFromZip_transport (net : network) (zipCode : jsstring) :
  let url := str "https://api.zippopotam.us/us/" ++ zipCode in
  match net url with
  | None => getCoordinatesFromZip zipCode net = (inl FetchFailed, [url])
  | Some {| ok := false; body := _ |} =>
      getCoordinatesFromZip zipCode net
      = (inl (Error (str "Failed to fetch coordinates for ZIP code " ++ zipCode)),
         [url])
  | Some {| ok := true; body := None |} =>
      getCoordinatesFromZip zipCode net = (inl JsonSyntaxError, [url])
  | Some {| ok := true; body := Some _ |} =>
      requests (getCoordinatesFromZip zipCode) net = [url]
  end.
Proof.
  intros url.
  pose proof (PipelineFacts.getCoordinatesFromZip_requests net zipCode) as R.
  change (geocodeUrl zipCode) with url in R. revert R.
  unfold requests, getCoordinatesFromZip. change (geocodeUrl zipCode) with url.
  unfold bind, fetch.
  destruct (net url) as [[[|] [data|]]|]; intros R; try reflexivity.
  exact R.
Qed.

(** X10. A place record is not checked for its fields: when the first
    record lacks [latitude] or [longitude], and what it has of the two
    can be converted to a string, [getCoordinatesFromZip] still returns,
    and the coordinate that is missing is [NaN]. *)
Theorem getCoordinatesFromZip_missing_field
        (net : network) (zipCode : jsstring)
        (data : value) (properties : list (jsstring * value)) (rest : list value)
        (latitude longitude : jsstring) :
  net (geocodeUrl zipCode) = Some {| ok := true; body := Some data |} ->
  get data (str "places") = inr (VArr (VObj properties :: rest)) ->
  ToString (lookup (VObj properties) (str "latitude")) = inr latitude ->
  ToString (lookup (VObj properties) (str "longitude")) = inr longitude ->
  exists coords,
    outcome (getCoordinatesFromZip zipCode) net = inr coords /\
    (assoc (str "latitude") properties = None -> lat coords = NaN) /\
    (assoc (str "longitude") properties = None -> lon coords = NaN).
Proof.
  intros Hnet Hplaces Hla Hlo. eexists. split.
  - exact (PipelineFacts.getCoordinatesFromZip_returns net zipCode data
             properties rest latitude longitude Hnet Hplaces Hla Hlo).
  - cbn [lat lon]. unfold lookup in Hla, Hlo.
    split; intros E; [rewrite E in Hla; injection Hla as <-
                     | rewrite E in Hlo; injection Hlo as <-]; reflexivity.
Qed.

Lemma getCoordinatesFromZip_missing_field_witness :
  let record := [(str "place name", VStr (str "Malden"))] in
  let net : network :=
    fun _ => Some {| ok := true;
                     body := Some (VObj [(str "places", VArr [VObj record])]) |} in
  exists coords,
    outcome (getCoordinatesFromZip (str "02148")) net = inr coords /\
    lat coords = NaN /\ lon coords = NaN.
Proof.
  intros record net.
  destruct (getCoordinatesFromZip_missing_field net (str "02148")
              (VObj [(str "places", VArr [VObj record])]) record []
              (str "undefined") (str "undefined")
              eq_refl eq_refl eq_refl eq_refl) as [coords [H [Hlat Hlon]]].
  exists coords. split; [exact H|].
  split; [apply Hlat | apply Hlon]; reflexivity.
Defined.

(** The requests of the pipeline: the address service alone, or the
    address service and then the forecast service. *)
Lemma getReadableWeatherByZip_requests
      (net : network) (zipCode : jsstring) (daysAhead : number) :
  requests (getReadableWeatherByZip zipCode daysAhead) net = [geocodeUrl zipCode]
  \/ exists coords,
       outcome (getCoordinatesFromZip zipCode) net = inr coords /\
       lessThan daysAhead (of_Z 0) || greaterThan daysAhead (of_Z 16) = false /\
       requests (getReadableWeatherByZip zipCode daysAhead) net
       = [geocodeUrl zipCode;
          forecastUrl (lat coords) (lon coords) (add daysAhead (of_Z 1))].
Proof.
  pose proof (PipelineFacts.getCoordinatesFromZip_requests net zipCode) as R.
  unfold requests, outcome in *.
  unfold getReadableWeatherByZip, getWeatherByZip, bind.
  destruct (getCoordinatesFromZip zipCode net) as [[e|coords] reqs];
    cbn [fst snd] in *; subst reqs.
  { left. reflexivity. }
  destruct (lessThan daysAhead (of_Z 0) || greaterThan daysAhead (of_Z 16)) eqn:C.
  - left.
    rewrite (GetWeatherFacts.getWeather_below_or_above net _ _ _ C). reflexivity.
  - right. exists coords. split; [reflexivity|]. split; [reflexivity|].
    pose proof (GetWeatherFacts.getWeather_requests net (lat coords) (lon coords)
                  daysAhead C) as Q.
    unfold requests in Q.
    destruct (getWeather (lat coords) (lon coords) daysAhead net)
      as [[e|weather] reqs']; cbn [snd] in *; subst reqs'; [reflexivity|].
    unfold ret. reflexivity.
Qed.

(** X11. Whatever the services answer, [getReadableWeatherByZip] asks
    the address service first and makes at most two requests; the
    second, when there is one, is the forecast request for the
    coordinates that the first returned and for [daysAhead + 1] days. *)
Theorem getReadableWeatherByZip_two_requests
        (net : network) (zipCode : jsstring) (daysAhead : number) :
  exists rest,
    requests (getReadableWeatherByZip zipCode daysAhead) net
    = geocodeUrl zipCode :: rest
    /\ (rest = []
        \/ exists coords,
             outcome (getCoordinatesFromZip zipCode) net = inr coords /\
             rest = [forecastUrl (lat coords) (lon coords)
                                 (add daysAhead (of_Z 1))]).
Proof.
  destruct (getReadableWeatherByZip_requests net zipCode daysAhead)
    as [H|[coords [Hc [_ H]]]]; rewrite H; eexists; split; try reflexivity.
  - left. reflexivity.
  - right. exists coords. split; [exact Hc | reflexivity].
Qed.

(** X12. In the pipeline the bounds of [daysAhead] are checked after
    the address service has answered: when the geocode succeeds and
    [daysAhead] is below 0 or above 16, the pipeline throws the range
    error and the address service has been requested. *)
Theorem getReadableWeatherByZip_range_after_geocode
        (net : network) (zipCode : jsstring) (daysAhead : number)
        (coords : Coordinates) :
  outcome (getCoordinatesFromZip zipCode) net = inr coords ->
  lessThan daysAhead (of_Z 0) || greaterThan daysAhead (of_Z 16) = true ->
  getReadableWeatherByZip zipCode daysAhead net
  = (inl rangeError, [geocodeUrl zipCode]).
Proof.
  intros Hc C.
  pose proof (PipelineFacts.getCoordinatesFromZip_requests net zipCode) as R.
  unfold requests, outcome in *.
  unfold getReadableWeatherByZip, getWeatherByZip, bind.
  destruct (getCoordinatesFromZip zipCode net) as [r reqs].
  cbn [fst snd] in *. subst r reqs.
  rewrite (GetWeatherFacts.getWeather_below_or_above net _ _ _ C). reflexivity.
Qed.

Lemma getReadableWeatherByZip_range_after_geocode_witness :
  getReadableWeatherByZip (str "02148") (of_Z 17) (scenario VNull)
  = (inl rangeError, [str "https://api.zippopotam.us/us/02148"]).
Proof.
  exact (getReadableWeatherByZip_range_after_geocode (scenario VNull)
           (str "02148") (of_Z 17)
           {| lat := parseFloat (str "42.49"); lon := parseFloat (str "-71.07") |}
           eq_refl eq_refl).
Defined.

End PipelineMore.

(* ================================================================== *)
(** ** Further properties of main.ts *)
(* ================================================================== *)

(** X13. [getRequiredEnv] returns the value of the variable when it is
    set to a string that is not empty; it throws, naming the variable,
    when the variable is not set and also when it is set to the empty
    string.  It never returns an empty string. *)
Theorem getRequiredEnv_set_and_not_empty
        (env : jsstring -> option jsstring) (name : jsstring) :
  match getRequiredEnv env name with
  | inr value => env name = Some value /\ value <> []
  | inl e =>
      e = Error (str "Environment variable " ++ name ++ str " is not set")
      /\ (env name = None \/ env name = Some [])
  end.
Proof.
  unfold getRequiredEnv. destruct (env name) as [[|c v]|]; cbn.
  - split; [reflexivity | right; reflexivity].
  - split; [reflexivity | discriminate].
  - split; [reflexivity | left; reflexivity].
Qed.

Section MainMore.

Context {Ctx : Type}.
Variable zodToJsonSchema : forall T, ZodObject T -> list (jsstring * value).

Lemma eqb_neq (a b : jsstring) : a <> b -> JsString.eqb a b = false.
Proof.
  intros H. destruct (JsString.eqb a b) eqn:E; [|reflexivity].
  apply eqb_eq in E. contradiction.
Qed.

Lemma assoc_set_same (key : jsstring) (x : value) (l : list (jsstring * value)) :
  assoc key (set key x l) = Some x.
Proof.
  induction l as [|[k v] r IH]; simpl.
  - rewrite eqb_refl. reflexivity.
  - destruct (JsString.eqb key k) eqn:E; simpl; rewrite E; [reflexivity | exact IH].
Qed.

Lemma assoc_set_other (key key' : jsstring) (x : value)
      (l : list (jsstring * value)) :
  key' <> key -> assoc key' (set key x l) = assoc key' l.
Proof.
  intros H. induction l as [|[k v] r IH]; simpl.
  - rewrite (eqb_neq _ _ H). reflexivity.
  - destruct (JsString.eqb key k) eqn:E; simpl.
    + apply eqb_eq in E. subst k. rewrite (eqb_neq _ _ H). reflexivity.
    + rewrite IH. reflexivity.
Qed.

Lemma set_keys (key : jsstring) (x y : value) (l : list (jsstring * value)) :
  assoc key l = Some y -> map fst (set key x l) = map fst l.
Proof.
  induction l as [|[k v] r IH]; simpl; [discriminate|].
  destruct (JsString.eqb key k); simpl; [reflexivity|].
  intros H. rewrite (IH H). reflexivity.
Qed.

(** X14. Whatever the conversion yields, the descriptor [createTool]
    returns has the name and the description of the options and a
    schema whose root [type] is truthy; every other member of the
    derived schema reads as before, and a derived schema whose root
    [type] is already truthy is exposed unchanged. *)
Theorem createTool_descriptor {T ToolResult}
        (options : Options.t T Ctx ToolResult) :
  let tool := createTool zodToJsonSchema options in
  let derived := zodToJsonSchema T (Options.schema options) in
  Tool.name tool = Options.name options /\
  Tool.description tool = Options.description options /\
  ToBoolean (lookup (Tool.parameters tool) (str "type")) = true /\
  (forall key, key <> str "type" ->
     lookup (Tool.parameters tool) key = lookup (VObj derived) key) /\
  (ToBoolean (lookup (VObj derived) (str "type")) = true ->
   Tool.parameters tool = VObj derived).
Proof.
  intros tool derived. unfold tool, createTool.
  cbn [Tool.name Tool.description Tool.parameters]. fold derived.
  split; [reflexivity|]. split; [reflexivity|].
  destruct (ToBoolean (lookup (VObj derived) (str "type"))) eqn:E; cbn [negb].
  - split; [exact E|]. split; [reflexivity | reflexivity].
  - split.
    + unfold lookup.
      rewrite (assoc_set_same (str "type") (VStr (str "object")) derived).
      reflexivity.
    + split; [|discriminate].
      intros key Hkey. unfold lookup. rewrite (assoc_set_other _ _ _ _ Hkey).
      reflexivity.
Qed.

(** X15. A root [type] that is there but falsy ([null], the empty
    string, ...) is overwritten where it stands: the members of the
    schema keep their order and [type] becomes ["object"]. *)
Theorem createTool_overwrites_falsy_type {T ToolResult}
        (options : Options.t T Ctx ToolResult) (old : value) :
  let derived := zodToJsonSchema T (Options.schema options) in
  assoc (str "type") derived = Some old ->
  ToBoolean old = false ->
  map fst (ownProperties (Tool.parameters (createTool zodToJsonSchema options)))
  = map fst derived
  /\ lookup (Tool.parameters (createTool zodToJsonSchema options)) (str "type")
     = VStr (str "object").
Proof.
  intros derived H F.
  assert (P : Tool.parameters (createTool zodToJsonSchema options)
              = VObj (set (str "type") (VStr (str "object")) derived)).
  { unfold createTool. cbn [Tool.parameters]. fold derived.
    unfold lookup. rewrite H, F. reflexivity. }
  rewrite P. cbn [ownProperties]. split.
  - exact (set_keys _ _ _ _ H).
  - unfold lookup. rewrite assoc_set_same. reflexivity.
Qed.

(** X16. For every schema, the [weatherForcasting] tool requests
    nothing when the payload is rejected, and otherwise runs the
    pipeline on the validated ZIP code and number of days: the address
    service first and at most two requests. *)
Theorem weatherForcasting_requests
        (schema : ZodObject ForecastParams)
        (payload : value) (ctx : Ctx) (net : network) :
  let run := Tool.execute (weatherForcasting zodToJsonSchema schema) payload ctx in
  match parse schema payload with
  | inl issues => run net = (inl (ZodError issues), [])
  | inr params =>
      run net = getReadableWeatherByZip (zipcode params) (daysAhead params) net
      /\ exists rest,
           requests run net = geocodeUrl (zipcode params) :: rest
           /\ (List.length rest <= 1)%nat
  end.
Proof.
  intros run. unfold run, weatherForcasting, createTool.
  cbn [Tool.execute Options.execute Options.schema]. unfold bind, parseAsync.
  destruct (parse schema payload) as [issues|params]; [reflexivity|].
  unfold ret.
  assert (E : (let '(r, reqs') :=
                 getReadableWeatherByZip (zipcode params) (daysAhead params) net in
               (r, [] ++ reqs'))
              = getReadableWeatherByZip (zipcode params) (daysAhead params) net).
  { destruct (getReadableWeatherByZip _ _ net). reflexivity. }
  split; [exact E|].
  unfold requests. rewrite E.
  destruct (PipelineMore.getReadableWeatherByZip_requests net (zipcode params)
              (daysAhead params)) as [H|[coords [_ [_ H]]]];
    unfold requests in H; rewrite H; eexists; split; try reflexivity; simpl; lia.
Qed.

End MainMore.

Lemma createTool_overwrites_falsy_type_witness :
  let conversion (T : Type) (schema : ZodObject T) : list (jsstring * value) :=
    [(str "type", VNull); (str "properties", VObj [])] in
  map fst (ownProperties
             (Tool.parameters
                (weatherForcasting (Ctx := unit) conversion forecastSchema)))
  = [str "type"; str "properties"]
  /\ lookup (Tool.parameters
               (weatherForcasting (Ctx := unit) conversion forecastSchema))
            (str "type")
     = VStr (str "object").
Proof.
  intros conversion.
  exact (createTool_overwrites_falsy_type (Ctx := unit) conversion
           {| Options.name := str "weatherForcasting";
              Options.description :=
                str "Get the weather forecast for a U.S. zipcode for N days ahead";
              Options.schema := forecastSchema;
              Options.execute := fun params _ =>
                getReadableWeatherByZip (zipcode params) (daysAhead params) |}
           VNull eq_refl eq_refl).
Defined.

(* ================================================================== *)
(** ** The command line script *)
(* ================================================================== *)

Module CliFacts.

Lemma includes_In (flag : jsstring) (args : list jsstring) :
  In flag args -> existsb (JsString.eqb flag) args = true.
Proof.
  intros H. apply existsb_exists. exists flag. split; [exact H | apply eqb_refl].
Qed.

(** X17. With [--help] or [-h] anywhere among the arguments the script
    prints the banner and the usage line, requests nothing and exits
    with status 0, whatever the other arguments are. *)
Theorem cli_help (runtimeMessage : exn -> jsstring)
        (args : list jsstring) (net : network) :
  In (str "--help") args \/ In (str "-h") args ->
  cli runtimeMessage args net
  = {| stdout := [banner; usage]; stderr := []; exitCode := 0; sent := [] |}.
Proof.
  intros H. unfold cli.
  assert (E : existsb (JsString.eqb (str "--help")) args
              || existsb (JsString.eqb (str "-h")) args = true).
  { destruct H as [H|H]; rewrite (includes_In _ _ H);
      [reflexivity | apply orb_true_r]. }
  rewrite E. reflexivity.
Qed.

Lemma cli_help_witness :
  cli (fun _ => []) [str "00000"; str "abc"; str "-h"] (fun _ => None)
  = {| stdout := [banner; usage]; stderr := []; exitCode := 0; sent := [] |}.
Proof.
  exact (cli_help (fun _ => []) [str "00000"; str "abc"; str "-h"] (fun _ => None)
           (or_intror (or_intror (or_intror (or_introl eq_refl))))).
Defined.

(** X18. Every run prints the banner first and makes at most two
    requests.  It ends in one of two ways: with status 0 and nothing on
    the error stream, or with status 1, one line [Error: ...] on the
    error stream and, on the output, the banner and the progress line
    only. *)
Theorem cli_outcome (runtimeMessage : exn -> jsstring)
        (args : list jsstring) (net : network) :
  let p := cli runtimeMessage args net in
  hd_error (stdout p) = Some banner /\
  (List.length (sent p) <= 2)%nat /\
  ((exitCode p = 0 /\ stderr p = [])
   \/ (exitCode p = 1 /\ List.length (stdout p) = 2%nat /\
       exists m, stderr p = [str "Error: " ++ m])).
Proof.
  unfold cli.
  destruct (existsb _ args || existsb _ args).
  { cbn. split; [reflexivity|]. split; [lia|]. left. split; reflexivity. }
  match goal with
  | |- context [getReadableWeatherByZip ?z ?d net] =>
      pose proof (PipelineMore.getReadableWeatherByZip_requests net z d) as R;
      unfold requests in R;
      destruct (getReadableWeatherByZip z d net) as [[e|block] reqs]
  end; cbn [snd] in R; cbn.
  - split; [reflexivity|]. split.
    + destruct R as [->|[c [_ [_ ->]]]]; simpl; lia.
    + right. split; [reflexivity|]. split; [reflexivity|]. eexists. reflexivity.
  - split; [reflexivity|]. split.
    + destruct R as [->|[c [_ [_ ->]]]]; simpl; lia.
    + left. split; reflexivity.
Qed.

(** X19. The defaults: without arguments the script runs as with the
    ZIP code 02148 and one day; an empty first argument stands for
    02148, and a missing or empty second argument for one day. *)
Theorem cli_defaults (runtimeMessage : exn -> jsstring) (net : network) :
  cli runtimeMessage [] net = cli runtimeMessage [str "02148"; str "1"] net /\
  (forall rest,
     cli runtimeMessage ([] :: rest) net
     = cli runtimeMessage (str "02148" :: rest) net) /\
  (forall zip,
     cli runtimeMessage [zip] net = cli runtimeMessage [zip; str "1"] net) /\
  (forall zip rest,
     cli runtimeMessage (zip :: [] :: rest) net
     = cli runtimeMessage (zip :: str "1" :: rest) net).
Proof.
  repeat split; intros; reflexivity.
Qed.

Lemma argument_truthy (arg : jsstring) :
  arg <> [] -> ToBoolean (VStr arg) = true.
Proof. destruct arg; [congruence|reflexivity]. Qed.

(** The pipeline once the geocode has succeeded and the bounds check
    has passed. *)
Lemma requests_after_geocode
      (net : network) (zipCode : jsstring) (daysAhead : number)
      (coords : Coordinates) :
  outcome (getCoordinatesFromZip zipCode) net = inr coords ->
  lessThan daysAhead (of_Z 0) || greaterThan daysAhead (of_Z 16) = false ->
  requests (getReadableWeatherByZip zipCode daysAhead) net
  = [geocodeUrl zipCode;
     forecastUrl (lat coords) (lon coords) (add daysAhead (of_Z 1))].
Proof.
  intros Hc C.
  destruct (PipelineMore.getReadableWeatherByZip_requests net zipCode daysAhead)
    as [H|[coords' [Hc' [_ H]]]].
  - exfalso.
    pose proof (PipelineFacts.getCoordinatesFromZip_requests net zipCode) as R.
    pose proof (GetWeatherFacts.getWeather_requests net (lat coords) (lon coords)
                  daysAhead C) as Q.
    revert H. unfold requests, outcome in *.
    unfold getReadableWeatherByZip, getWeatherByZip, bind.
    destruct (getCoordinatesFromZip zipCode net) as [r reqs].
    cbn [fst snd] in *. subst r reqs.
    destruct (getWeather (lat coords) (lon coords) daysAhead net)
      as [[e|weather] reqs']; cbn [snd] in *; subst reqs'; discriminate.
  - rewrite Hc in Hc'. injection Hc' as <-. exact H.
Qed.

(** X20. A second argument in which [parseInt] finds no number reaches
    [getWeather] as [NaN]: when the geocode succeeds the script
    announces [NaN days] and requests a forecast whose [forecast_days]
    is [NaN]. *)
Theorem cli_not_a_number
        (runtimeMessage : exn -> jsstring)
        (zip days : jsstring) (rest : list jsstring)
        (net : network) (coords : Coordinates) :
  zip <> [] -> days <> [] ->
  existsb (JsString.eqb (str "--help")) (zip :: days :: rest)
  || existsb (JsString.eqb (str "-h")) (zip :: days :: rest) = false ->
  parseInt days = NaN ->
  outcome (getCoordinatesFromZip zip) net = inr coords ->
  let p := cli runtimeMessage (zip :: days :: rest) net in
  sent p = [geocodeUrl zip; forecastUrl (lat coords) (lon coords) NaN] /\
  nth 1 (stdout p) []
  = str "Fetching weather for ZIP code " ++ zip
    ++ str " (NaN days from today)..." ++ LF.
Proof.
  intros Hz Hd Hh Hp Hc p. unfold p, cli. rewrite Hh. cbn [nth_error].
  rewrite (argument_truthy zip Hz), (argument_truthy days Hd), Hp.
  pose proof (requests_after_geocode net zip NaN coords Hc eq_refl) as R.
  change (add NaN (of_Z 1)) with NaN in R. unfold requests in R.
  destruct (getReadableWeatherByZip zip NaN net) as [[e|block] reqs];
    cbn [snd] in R; subst reqs; cbn [sent stdout nth]; split; reflexivity.
Qed.

Lemma cli_not_a_number_witness :
  let p := cli (fun _ => []) [str "02148"; str "abc"] (scenario (VNum (of_Z 1))) in
  sent p
  = [str "https://api.zippopotam.us/us/02148";
     str "https://api.open-meteo.com/v1/forecast?latitude=42.49&longitude=-71.07&daily=temperature_2m_max,temperature_2m_min,precipitation_sum,weather_code&temperature_unit=fahrenheit&timezone=America/New_York&forecast_days=NaN"]
  /\ nth 1 (stdout p) []
     = str "Fetching weather for ZIP code 02148 (NaN days from today)..." ++ LF.
Proof.
  exact (cli_not_a_number (fun _ => []) (str "02148") (str "abc") []
           (scenario (VNum (of_Z 1)))
           {| lat := parseFloat (str "42.49"); lon := parseFloat (str "-71.07") |}
           ltac:(discriminate) ltac:(discriminate) eq_refl eq_refl eq_refl).
Defined.

(** X21. A number of days that [parseInt] reads below 0 or above 16 is
    refused only after the address service has answered: when the
    geocode succeeds the script has made that one request, prints the
    range error on the error stream and exits with status 1. *)
Theorem cli_out_of_range
        (runtimeMessage : exn -> jsstring)
        (zip days : jsstring) (rest : list jsstring)
        (net : network) (coords : Coordinates) :
  zip <> [] -> days <> [] ->
  existsb (JsString.eqb (str "--help")) (zip :: days :: rest)
  || existsb (JsString.eqb (str "-h")) (zip :: days :: rest) = false ->
  lessThan (parseInt days) (of_Z 0) || greaterThan (parseInt days) (of_Z 16) = true ->
  outcome (getCoordinatesFromZip zip) net = inr coords ->
  let p := cli runtimeMessage (zip :: days :: rest) net in
  sent p = [geocodeUrl zip] /\
  stderr p
  = [str "Error: nextday must be between 0 and 16 (Open-Meteo free tier limit)"] /\
  exitCode p = 1 /\
  List.length (stdout p) = 2%nat.
Proof.
  intros Hz Hd Hh C Hc p. unfold p, cli. rewrite Hh. cbn [nth_error].
  rewrite (argument_truthy zip Hz), (argument_truthy days Hd).
  assert (E : getReadableWeatherByZip zip (parseInt days) net
              = (inl rangeError, [geocodeUrl zip])).
  { pose proof (PipelineFacts.getCoordinatesFromZip_requests net zip) as R.
    unfold requests, outcome in *.
    unfold getReadableWeatherByZip, getWeatherByZip, bind.
    destruct (getCoordinatesFromZip zip net) as [r reqs].
    cbn [fst snd] in *. subst r reqs.
    rewrite (GetWeatherFacts.getWeather_below_or_above net _ _ _ C). reflexivity. }
  rewrite E. cbn. repeat split.
Qed.

Lemma cli_out_of_range_witness :
  let p := cli (fun _ => []) [str "02148"; str "17"] (scenario (VNum (of_Z 1))) in
  sent p = [str "https://api.zippopotam.us/us/02148"] /\
  stderr p
  = [str "Error: nextday must be between 0 and 16 (Open-Meteo free tier limit)"] /\
  exitCode p = 1 /\
  List.length (stdout p) = 2%nat.
Proof.
  exact (cli_out_of_range (fun _ => []) (str "02148") (str "17") []
           (scenario (VNum (of_Z 1)))
           {| lat := parseFloat (str "42.49"); lon := parseFloat (str "-71.07") |}
           ltac:(discriminate) ltac:(discriminate) eq_refl eq_refl eq_refl).
Defined.

End CliFacts.

Module GetWeatherRange.

(** X22. Every number from 0 to 16 passes the bounds check, whole or
    not, and [getWeather] then makes exactly one request, whose
    [forecast_days] is the number plus one as printed: a day offset of
    0.5 asks for 1.5 days. *)
Theorem getWeather_in_range_requests
        (net : network) (lat lon nextday : number) :
  lessOrEqual (of_Z 0) nextday = true ->
  lessOrEqual nextday (of_Z 16) = true ->
  requests (getWeather lat lon nextday) net
  = [str "https://api.open-meteo.com/v1/forecast?latitude=" ++ toString lat
     ++ str "&longitude=" ++ toString lon
     ++ str "&daily=temperature_2m_max,temperature_2m_min,precipitation_sum,weather_code&temperature_unit=fahrenheit&timezone=America/New_York&forecast_days="
     ++ toString (add nextday (of_Z 1))].
Proof.
  intros H0 H16.
  exact (GetWeatherFacts.getWeather_requests net lat lon nextday
           (GetWeatherFacts.getWeather_check_passes nextday H0 H16)).
Qed.

Lemma getWeather_in_range_requests_witness :
  requests (getWeather (of_Z 42) (of_Z (-71)) (parseFloat (str "0.5")))
           (fun _ => None)
  = [str "https://api.open-meteo.com/v1/forecast?latitude=42&longitude=-71&daily=temperature_2m_max,temperature_2m_min,precipitation_sum,weather_code&temperature_unit=fahrenheit&timezone=America/New_York&forecast_days=1.5"].
Proof.
  exact (getWeather_in_range_requests (fun _ => None) (of_Z 42) (of_Z (-71))
           (parseFloat (str "0.5")) eq_refl eq_refl).
Defined.

End GetWeatherRange.

Lemma createTool_descriptor_witness :
  let conversion (T : Type) (schema : ZodObject T) : list (jsstring * value) :=
    [(str "type", VStr (str "object")); (str "properties", VObj [])] in
  let tool := weatherForcasting (Ctx := unit) conversion forecastSchema in
  Tool.name tool = str "weatherForcasting" /\
  lookup (Tool.parameters tool) (str "properties") = VObj [] /\
  Tool.parameters tool = VObj (conversion _ forecastSchema).
Proof.
  intros conversion tool.
  destruct (createTool_descriptor (Ctx := unit) conversion
              {| Options.name := str "weatherForcasting";
                 Options.description :=
                   str "Get the weather forecast for a U.S. zipcode for N days ahead";
                 Options.schema := forecastSchema;
                 Options.execute := fun params _ =>
                   getReadableWeatherByZip (zipcode params) (daysAhead params) |})
    as [Hname [_ [_ [Hother Hsame]]]].
  split; [exact Hname|]. split.
  - exact (Hother (str "properties") ltac:(discriminate)).
  - exact (Hsame eq_refl).
Defined.
